(** * Kinetic AI web client: real-time session layer

    A shallow embedding of the request handlers and client hooks that make up
    the session layer of the dashboard, and the properties of the written
    specification checked against them.

    - [PoseEstimation]  : POST handler of the pose-analysis route
    - [SocketProvider]  : reconnect logic of the legacy WebSocket connection
    - [WebRTCClient]    : signaling handlers of [initializeWebRTC]
    - [VideoCallRoute]  : POST handler of the video-call route
    - [AuthApi]         : [startVideoCall] / [endVideoCall] hooks and the
                          [video_sessions] table
    - [Progress]        : POST and GET handlers of the progress route
    - [Appointments]    : handlers of the appointments route (POST, GET, PUT,
                          DELETE) and the requests of its client
    - [PoseClient]      : [analyzePoseData] hook
    - [SessionQueries]  : [getVideoCallSession] / [getActiveVideoCallSessions]

    Conventions.  JavaScript strings are [string]; a value that may be
    [undefined] or [null] is an [option]; time stamps are milliseconds since
    the epoch in [Z] (the ISO strings written by [toISOString] and read back by
    [new Date(..).getTime()] carry exactly that).  Remote collaborators (the
    FastAPI backend, the clock, the database error channel) are inputs of the
    handlers: every handler is a function of the request, the store and the
    collaborator's answers.  The constraints of the [video_sessions] table
    (column types, keys, row-level policies) are those of the schema.  The
    progress route stores request values of any kind and does arithmetic on
    them; there the values are a type parameter and the arithmetic is kept
    symbolic. *)

From stdpp Require Import base decidable option list strings pretty gmap.
From Stdlib Require Import Ascii ZArith Lia.

#[local] Open Scope string_scope.
#[local] Open Scope list_scope.
#[local] Open Scope Z_scope.

(** ** JavaScript helpers shared by the handlers *)

(** Truthiness of a possibly missing string: [undefined], [null] and the empty
    string are falsy. *)
Definition truthy (v : option string) : bool :=
  match v with
  | Some s => negb (String.eqb s "")
  | None => false
  end.

(** [a || b] on strings. *)
Definition or_else (v : option string) (d : string) : string :=
  if truthy v then default d v else d.

(** [h.startsWith('Bearer ')] *)
Definition is_bearer (h : string) : bool := String.prefix "Bearer " h.

(** [!authHeader || !authHeader.startsWith('Bearer ')] *)
Definition bad_auth_header (h : option string) : bool :=
  match h with
  | Some s => negb (truthy (Some s)) || negb (is_bearer s)
  | None => true
  end.

(** [response.ok] of the fetch API *)
Definition http_ok (status : nat) : bool :=
  (200 <=? status)%nat && (status <=? 299)%nat.

(** ** Pose-analysis route (POST) *)

Module PoseEstimation.

(** A row of the [pose_analyses] table. *)
Record pose_row := {
  user_id : string;
  session_id : option string;
  pose_data : string;
  row_analysis : option string;
  row_feedback : option string;
  row_score : option Z;
  created_at : Z
}.

(** Body of the backend's answer. *)
Record backend_data := {
  detail : option string;
  b_analysis : option string;
  b_feedback : option string;
  b_score : option Z
}.

(** What [fetch] followed by [response.json()] yields: an HTTP status with a
    body, or an exception ([FetchFailed] carries its message: the network
    call or the decoding of the body threw). *)
Inductive backend_reply :=
| Replied (http : nat) (data : backend_data)
| FetchFailed (err : string).

(** The request forwarded to [`${BACKEND_URL}/motion/analyze`]. *)
Record backend_request := {
  authorization : string;
  req_pose_data : string;
  req_video_frame : option string;
  req_session_id : option string
}.

Record body := {
  poseData : string;
  videoFrame : option string;
  sessionId : option string
}.

(** One submission together with everything the handler reads from its
    environment while serving it. *)
Record submission := {
  auth_session : option string;      (* session.user.id of supabase.auth.getSession() *)
  auth_header : option string;       (* request.headers.get('authorization') *)
  json_body : body + string;         (* request.json(), or the message of the exception it throws *)
  select_data : bool;                (* false: the select returned data = null *)
  current_time : Z;                  (* new Date().getTime() of the throttle check *)
  reply : backend_reply;             (* answer of the analysis backend *)
  store_time : Z;                    (* new Date().toISOString() of the insert *)
  storage_error : bool               (* the insert reported an error *)
}.

Inductive result_fields :=
| NoFields
| Fields (analysis feedback : option string) (score : option Z).

Record response := {
  status : nat;
  success : bool;
  message : string;
  fields : result_fields;
  error : option string
}.

Record outcome := {
  resp : response;
  db_after : list pose_row;
  forwarded : option backend_request
}.

(** [.eq('session_id', sid).eq('user_id', uid)] *)
Definition matches (sid uid : string) (r : pose_row) : bool :=
  bool_decide (session_id r = Some sid) && String.eqb (user_id r) uid.

(** [.order('created_at', { ascending: false }).limit(1)] *)
Fixpoint latest (rows : list pose_row) : option pose_row :=
  match rows with
  | [] => None
  | r :: rest =>
      match latest rest with
      | Some r' => if created_at r <? created_at r' then Some r' else Some r
      | None => Some r
      end
  end.

Definition recent_analysis (db : list pose_row) (sid uid : string) : option pose_row :=
  latest (filter (fun r => matches sid uid r = true) db).

Definition throttled_response : response :=
  {| status := 200; success := true;
     message := "Throttled - using previous analysis";
     fields := Fields None (Some "Processing previous movement...") None;
     error := None |}.

Definition unauthenticated (msg : string) : response :=
  {| status := 401; success := false; message := msg; fields := NoFields; error := None |}.

Definition unavailable (err : string) : response :=
  {| status := 500; success := false;
     message := "Pose estimation service unavailable";
     fields := NoFields; error := Some err |}.

(** The duplicate check of lines 33-59: [true] when the handler answers
    "Throttled". *)
Definition throttled (db : list pose_row) (uid : string) (s : submission) (b : body) : bool :=
  if truthy (sessionId b) then
    if select_data s then
      match recent_analysis db (default "" (sessionId b)) uid with
      | Some r => current_time s - created_at r <? 500
      | None => false
      end
    else false
  else false.

(** The handler.  The best-score bookkeeping of lines 96-131 touches the
    tables [therapy_sessions] and [user_exercise_stats] only and is left out:
    it reads and writes neither [pose_analyses] nor the response. *)
Definition POST (db : list pose_row) (s : submission) : outcome :=
  match auth_session s with
  | None =>
      {| resp := unauthenticated "Authentication required";
         db_after := db; forwarded := None |}
  | Some uid =>
      if bad_auth_header (auth_header s) then
        {| resp := unauthenticated "Invalid authentication token";
           db_after := db; forwarded := None |}
      else
        match json_body s with
        | inr err =>
            {| resp := unavailable err; db_after := db; forwarded := None |}
        | inl b =>
            if throttled db uid s b then
              {| resp := throttled_response; db_after := db; forwarded := None |}
            else
              let sent :=
                {| authorization := default "" (auth_header s);
                   req_pose_data := poseData b;
                   req_video_frame := videoFrame b;
                   req_session_id := sessionId b |} in
              match reply s with
              | FetchFailed err =>
                  {| resp := unavailable err; db_after := db; forwarded := Some sent |}
              | Replied http data =>
                  if http_ok http then
                    let row :=
                      {| user_id := uid; session_id := sessionId b;
                         pose_data := poseData b;
                         row_analysis := b_analysis data;
                         row_feedback := b_feedback data;
                         row_score := b_score data;
                         created_at := store_time s |} in
                    {| resp :=
                         {| status := 200; success := true;
                            message := "Pose data analyzed successfully";
                            fields := Fields (b_analysis data) (b_feedback data) (b_score data);
                            error := None |};
                       db_after := if storage_error s then db else db ++ [row];
                       forwarded := Some sent |}
                  else
                    {| resp :=
                         {| status := http; success := false;
                            message := or_else (detail data) "Failed to analyze pose data";
                            fields := NoFields; error := None |};
                       db_after := db; forwarded := Some sent |}
              end
        end
  end.

(** Submissions served one after the other. *)
Fixpoint serve_all (db : list pose_row) (subs : list submission) : list pose_row :=
  match subs with
  | [] => db
  | s :: rest => serve_all (db_after (POST db s)) rest
  end.

(** A submission is accepted when it is forwarded to the backend. *)
Definition accepted (o : outcome) : bool :=
  match forwarded o with Some _ => true | None => false end.

(** Sample data: a user streaming frames for one session. *)
Definition pose_example_body : body :=
  {| poseData := "keypoints"; videoFrame := None; sessionId := Some "session-1" |}.

Definition pose_example_submission (t : Z) (r : backend_reply) : submission :=
  {| auth_session := Some "user-1"; auth_header := Some "Bearer token";
     json_body := inl pose_example_body; select_data := true;
     current_time := t; reply := r; store_time := t + 40; storage_error := false |}.

Definition pose_example_data : backend_data :=
  {| detail := None; b_analysis := Some "ok"; b_feedback := Some "Good form";
     b_score := Some 87 |}.

Definition pose_example_first : submission :=
  pose_example_submission 1000 (Replied 200 pose_example_data).

Definition pose_example_second : submission :=
  pose_example_submission 1080 (Replied 200 pose_example_data).


(** Two frames 100ms apart; the backend is overloaded when the first one
    reaches it. *)
Definition pose_example_overloaded : backend_data :=
  {| detail := Some "overloaded"; b_analysis := None; b_feedback := None;
     b_score := None |}.

Definition pose_example_rejected : submission :=
  pose_example_submission 1000 (Replied 503 pose_example_overloaded).

Definition pose_example_retry : submission :=
  pose_example_submission 1100 (Replied 200 pose_example_data).



(** The throttle in the words of the specification: of two submissions for
    one session received less than 500ms apart, the later one is throttled
    once the earlier one was accepted.  Both come from the same authenticated
    user, the database answers its queries, and the clock does not run
    backwards. *)
Definition spec_throttle : Prop :=
  forall db s1 s2 b1 b2 sid,
    auth_session s1 = auth_session s2 ->
    bad_auth_header (auth_header s2) = false ->
    json_body s1 = inl b1 -> json_body s2 = inl b2 ->
    sessionId b1 = Some sid -> sessionId b2 = Some sid -> truthy (Some sid) = true ->
    select_data s2 = true -> storage_error s1 = false ->
    current_time s1 <= store_time s1 ->
    0 <= current_time s2 - current_time s1 < 500 ->
    accepted (POST db s1) = true ->
    resp (POST (db_after (POST db s1)) s2) = throttled_response /\
    accepted (POST (db_after (POST db s1)) s2) = false.


End PoseEstimation.

(** ** Legacy WebSocket connection of the socket provider *)

Module SocketProvider.

(** The part of the provider's state the reconnect logic touches. *)
Record state := {
  sockets_created : nat;          (* number of [new WebSocket(wsUrl)] so far *)
  reconnectTimeoutRef : option Z; (* the timer of the ref while it is pending, with its delay in ms *)
  scheduled : list Z              (* delay of every timer set so far, oldest first *)
}.

Inductive event :=
| SocketClosed      (* [socketInstance.onclose] *)
| TimeoutFired.     (* the pending timer of [reconnectTimeoutRef] expires *)

(** [connectWebSocket()]; the constructor is taken not to throw (the URL is
    fixed).  The cleanup of the effect (unmount) is not part of the runs
    below. *)
Definition connectWebSocket (st : state) : state :=
  {| sockets_created := S (sockets_created st);
     reconnectTimeoutRef := reconnectTimeoutRef st;
     scheduled := scheduled st |}.

(** [socketInstance.onclose]: clear a pending timer, then
    [setTimeout(() => connectWebSocket(), 3000)]. *)
Definition onclose (st : state) : state :=
  {| sockets_created := sockets_created st;
     reconnectTimeoutRef := Some 3000;
     scheduled := scheduled st ++ [3000] |}.

Definition step (st : state) (e : event) : state :=
  match e with
  | SocketClosed => onclose st
  | TimeoutFired =>
      match reconnectTimeoutRef st with
      | Some _ =>
          connectWebSocket
            {| sockets_created := sockets_created st;
               reconnectTimeoutRef := None;
               scheduled := scheduled st |}
      | None => st
      end
  end.

(** State after the effect has run once: the first [connectWebSocket()]. *)
Definition mounted : state :=
  connectWebSocket {| sockets_created := 0; reconnectTimeoutRef := None; scheduled := [] |}.

Definition run (st : state) (evs : list event) : state := foldl step st evs.

(** [n] connection attempts that each end in a closure, the reconnect timer
    firing after each closure but the last. *)
Fixpoint failures (n : nat) : list event :=
  match n with
  | O => []
  | S O => [SocketClosed]
  | S m => SocketClosed :: TimeoutFired :: failures m
  end.

(** Delay scheduled after the [n]-th closure in a row (counted from 0), that
    is, the delay before reconnect attempt [n]. *)
Definition reconnect_delay (n : nat) : option Z :=
  scheduled (run mounted (failures (S n))) !! n.

(** The policy in the words of the specification: base 1s, factor 2, cap 30s,
    jitter of 20 percent either way, at most [max_attempts] attempts. *)
Definition spec_nominal_delay (n : nat) : Z := Z.min (1000 * 2 ^ Z.of_nat n) 30000.

Definition spec_within_jitter (d nominal : Z) : Prop :=
  4 * nominal <= 5 * d <= 6 * nominal.

Definition spec_backoff (delay : nat -> option Z) (max_attempts : nat) : Prop :=
  (forall n d, delay n = Some d -> spec_within_jitter d (spec_nominal_delay n)) /\
  (forall n d d', delay n = Some d -> delay (S n) = Some d' -> d < 30000 -> d < d') /\
  (forall n, (max_attempts <= n)%nat -> delay n = None).

(** Number of reconnect timers that are pending. *)
Definition pending_timers (st : state) : nat :=
  match reconnectTimeoutRef st with Some _ => 1 | None => 0 end.

(** Number of closures among the events. *)
Fixpoint closures (evs : list event) : nat :=
  match evs with
  | [] => 0
  | SocketClosed :: rest => S (closures rest)
  | TimeoutFired :: rest => closures rest
  end.

End SocketProvider.

(** ** JSON values *)

#[local] Set Warnings "-register-all".

Inductive json :=
| JNull
| JBool (b : bool)
| JNum (z : Z)
| JStr (s : string)
| JArr (items : list json)
| JObj (fields : list (string * json)).

(** Property lookup [o.k]; [None] is [undefined].  Parsed objects have one
    entry per key. *)
Fixpoint assoc (k : string) (fields : list (string * json)) : option json :=
  match fields with
  | [] => None
  | (k', v) :: rest => if String.eqb k k' then Some v else assoc k rest
  end.

Definition get (k : string) (j : json) : option json :=
  match j with
  | JObj fields => assoc k fields
  | _ => None
  end.

Definition keys (j : json) : list string :=
  match j with
  | JObj fields => fst <$> fields
  | _ => []
  end.

(** An object literal as [JSON.stringify] prints it: properties whose value
    is [undefined] are left out. *)
Definition object (fields : list (string * option json)) : json :=
  JObj (omap (fun kv => pair (fst kv) <$> snd kv) fields).

(** Truthiness of a JSON value that may be [undefined]. *)
Definition js_truthy (v : option json) : bool :=
  match v with
  | None | Some JNull | Some (JBool false) => false
  | Some (JNum z) => negb (z =? 0)
  | Some (JStr s) => negb (String.eqb s "")
  | Some _ => true
  end.

(** [v === s] for a string literal [s]. *)
Definition is_string (v : option json) (s : string) : bool :=
  match v with
  | Some (JStr s') => String.eqb s' s
  | _ => false
  end.

(** ** Signaling handlers of the call screen ([initializeWebRTC]) *)

Module WebRTCClient.

(** What the handlers do to the peer connection and to the socket. *)
Inductive effect :=
| CreateOffer
| CreateAnswer
| SetLocalDescription (d : json)
| SetRemoteDescription (d : option json)
| AddIceCandidate (c : option json)
| Send (msg : json).                 (* [ws.send(JSON.stringify(msg))] *)

(** The client keeps no state of its own between events except the peer
    connection; [effects] logs the calls in program order. *)
Record client := {
  remote_description : option (option json);  (* [Some] once setRemoteDescription ran *)
  effects : list effect
}.

Inductive event :=
| Open (offer : json)                  (* [ws.onopen]; [offer] is what createOffer resolves to *)
| Message (data : json) (answer : json)  (* [ws.onmessage]; [answer]: what createAnswer would resolve to *)
| IceCandidate (candidate : option json). (* [peerConnection.onicecandidate] *)

Definition emit (c : client) (es : list effect) : client :=
  {| remote_description := remote_description c; effects := effects c ++ es |}.

Definition set_remote (c : client) (d : option json) : client :=
  {| remote_description := Some d; effects := effects c ++ [SetRemoteDescription d] |}.

Definition onopen (offer : json) (c : client) : client :=
  emit c [CreateOffer; SetLocalDescription offer;
          Send (object [("type", Some (JStr "offer")); ("offer", Some offer)])].

(** [ws.onmessage]; the awaited calls of one message are logged in program
    order, and are taken to resolve. *)
Definition onmessage (data answer : json) (c : client) : client :=
  if is_string (get "type" data) "offer" then
    emit (set_remote c (get "offer" data))
      [CreateAnswer; SetLocalDescription answer;
       Send (object [("type", Some (JStr "answer")); ("answer", Some answer)])]
  else if is_string (get "type" data) "answer" then
    set_remote c (get "answer" data)
  else if is_string (get "type" data) "ice-candidate" then
    emit c [AddIceCandidate (get "candidate" data)]
  else c.

Definition onicecandidate (candidate : option json) (c : client) : client :=
  match candidate with
  | Some cand =>
      emit c [Send (object [("type", Some (JStr "ice-candidate")); ("candidate", Some cand)])]
  | None => c
  end.

Definition handle (c : client) (e : event) : client :=
  match e with
  | Open offer => onopen offer c
  | Message data answer => onmessage data answer c
  | IceCandidate cand => onicecandidate cand c
  end.

Definition fresh : client := {| remote_description := None; effects := [] |}.

Definition run (c : client) (evs : list event) : client := foldl handle c evs.

(** Candidates received from the peer, in arrival order. *)
Definition received_candidates (evs : list event) : list (option json) :=
  omap (fun e =>
          match e with
          | Message data _ =>
              if is_string (get "type" data) "ice-candidate"
              then Some (get "candidate" data) else None
          | _ => None
          end) evs.

(** Candidates handed to [addIceCandidate], in call order. *)
Definition applied_candidates (es : list effect) : list (option json) :=
  omap (fun e => match e with AddIceCandidate c => Some c | _ => None end) es.

(** Candidates handed to [addIceCandidate] before the first
    [setRemoteDescription]. *)
Fixpoint applied_early (es : list effect) : list (option json) :=
  match es with
  | [] => []
  | SetRemoteDescription _ :: _ => []
  | AddIceCandidate c :: rest => c :: applied_early rest
  | _ :: rest => applied_early rest
  end.

(** Messages written to the signaling socket, in order. *)
Definition sent (es : list effect) : list json :=
  omap (fun e => match e with Send m => Some m | _ => None end) es.

(** The envelope of the written protocol: [type], [sessionId], [senderId]
    and [payload]. *)
Definition spec_envelope (msg : json) : Prop :=
  is_Some (get "type" msg) /\ is_Some (get "sessionId" msg) /\
  is_Some (get "senderId" msg) /\ is_Some (get "payload" msg).

(** The messages this client writes: a [type] and one property named after
    what it carries. *)
Definition client_message (msg : json) : Prop :=
  exists carried,
    msg = JObj [("type", JStr "offer"); ("offer", carried)] \/
    msg = JObj [("type", JStr "answer"); ("answer", carried)] \/
    msg = JObj [("type", JStr "ice-candidate"); ("candidate", carried)].

(** The wire format in the words of the specification. *)
Definition spec_wire : Prop :=
  forall evs, Forall spec_envelope (sent (effects (run fresh evs))).

(** The candidate buffer in the words of the specification: no candidate is
    applied before the remote description is set, and once it is set every
    candidate received so far has been applied, once, in arrival order. *)
Definition spec_ice_buffer : Prop :=
  forall evs,
    applied_early (effects (run fresh evs)) = [] /\
    (remote_description (run fresh evs) <> None ->
     applied_candidates (effects (run fresh evs)) = received_candidates evs).

(** Sample data. *)
Definition example_candidate : json :=
  JObj [("candidate", JStr "candidate:1 1 udp 2122260223 192.0.2.1 54321 typ host");
        ("sdpMid", JStr "0")].

Definition example_ice_message : json :=
  JObj [("type", JStr "ice-candidate"); ("candidate", example_candidate)].

Definition example_sdp (kind : string) : json :=
  JObj [("type", JStr kind); ("sdp", JStr "v=0")].

(** Remote descriptions received from the peer, in arrival order: the
    [offer] of an offer message, the [answer] of an answer message. *)
Definition received_descriptions (evs : list event) : list (option json) :=
  omap (fun e =>
          match e with
          | Message data _ =>
              if is_string (get "type" data) "offer" then Some (get "offer" data)
              else if is_string (get "type" data) "answer" then Some (get "answer" data)
              else None
          | _ => None
          end) evs.

(** Messages of type [t] among the effects, and among the events. *)
Definition sent_of_type (t : string) (es : list effect) : nat :=
  length (filter (fun m => is_string (get "type" m) t = true) (sent es)).

Definition is_message (t : string) (e : event) : bool :=
  match e with
  | Message data _ => is_string (get "type" data) t
  | _ => false
  end.

Definition received_of_type (t : string) (evs : list event) : nat :=
  length (filter (fun e => is_message t e = true) evs).

Definition is_open (e : event) : bool :=
  match e with Open _ => true | _ => false end.

Definition is_local_candidate (e : event) : bool :=
  match e with IceCandidate (Some _) => true | _ => false end.

End WebRTCClient.

(** ** Video-call route (POST) *)

Module VideoCallRoute.

(** The destructured request body; a missing property is [None]. *)
Record body := {
  userId : option json;
  targetId : option json;
  type : option json;
  sessionData : option json;
  offer : option json;
  answer : option json;
  candidate : option json
}.

Record request := {
  auth_header : option string;   (* request.headers.get('authorization') *)
  json_body : option body        (* request.json(); None when it throws *)
}.

(** A call to the session backend. *)
Record backend_call := {
  path : string;                 (* appended to BACKEND_URL *)
  authorization : string;
  sent_body : json
}.

(** What the backend call yields: a status and a decoded body, or an
    exception (network failure, undecodable body). *)
Inductive backend_reply :=
| Replied (http : nat) (data : json)
| FetchFailed.

Record response := {
  status : nat;
  content : json
}.

Record outcome := {
  resp : response;
  forwarded : option backend_call
}.

Definition failure (st : nat) (msg : json) : response :=
  {| status := st; content := object [("success", Some (JBool false)); ("message", Some msg)] |}.

Definition unavailable : response :=
  failure 500 (JStr "Video call service unavailable").

(** [sessionData?.sessionId] *)
Definition session_id_of (sessionData : option json) : option json :=
  sessionData ≫= get "sessionId".

(** [data.detail || fallback] *)
Definition detail_or (data : json) (fallback : string) : json :=
  if js_truthy (get "detail" data) then default JNull (get "detail" data) else JStr fallback.

Definition is_null (j : json) : bool :=
  match j with JNull => true | _ => false end.

(** One branch of the dispatch: forward [payload] to [p], then answer with
    [ok data] on a 2xx reply and with the backend's status and detail
    otherwise.  [reads] tells whether the success answer reads a property of
    the reply; reading a property of a [null] body throws, which the
    handler's catch turns into a 500. *)
Definition relay (auth : string) (p : string) (payload : json) (reads : bool)
    (ok : json -> json) (fallback : string) (reply : backend_reply) : outcome :=
  let call := {| path := p; authorization := auth; sent_body := payload |} in
  {| resp :=
       match reply with
       | FetchFailed => unavailable
       | Replied http data =>
           if http_ok http then
             if reads && is_null data then unavailable
             else {| status := 200; content := ok data |}
           else
             if is_null data then unavailable
             else failure http (detail_or data fallback)
       end;
     forwarded := Some call |}.

(** The message types the dispatch has a branch for. *)
Definition recognized : list string :=
  ["start-session"; "offer"; "answer"; "ice-candidate"; "end-session"].

(** The type set of the written protocol. *)
Definition spec_types : list string :=
  ["start-session"; "offer"; "answer"; "ice-candidate"; "end-session"; "error"].

Definition POST (req : request) (reply : backend_reply) : outcome :=
  if bad_auth_header (auth_header req) then
    {| resp := failure 401 (JStr "Authentication required"); forwarded := None |}
  else
    let auth := default "" (auth_header req) in
    match json_body req with
    | None => {| resp := unavailable; forwarded := None |}
    | Some b =>
        if is_string (type b) "start-session" then
          relay auth "/session/start"
            (object [("user_id", userId b); ("target_id", targetId b);
                     ("session_type", Some (JStr "video_call"));
                     ("metadata", sessionData b)]) true
            (fun data =>
               object [("success", Some (JBool true));
                       ("message", Some (JStr "Video call session started"));
                       ("sessionId", get "session_id" data);
                       ("websocketUrl", get "websocket_url" data);
                       ("iceServers", get "ice_servers" data)])
            "Failed to start session" reply
        else if is_string (type b) "offer" then
          relay auth "/session/webrtc/offer"
            (object [("session_id", session_id_of (sessionData b));
                     ("offer", offer b); ("target_id", targetId b)]) true
            (fun data =>
               object [("success", Some (JBool true));
                       ("message", Some (JStr "Offer sent successfully"));
                       ("sessionId", get "session_id" data)])
            "Failed to send offer" reply
        else if is_string (type b) "answer" then
          relay auth "/session/webrtc/answer"
            (object [("session_id", session_id_of (sessionData b));
                     ("answer", answer b)]) false
            (fun _ =>
               object [("success", Some (JBool true));
                       ("message", Some (JStr "Answer sent successfully"))])
            "Failed to send answer" reply
        else if is_string (type b) "ice-candidate" then
          relay auth "/session/webrtc/ice-candidate"
            (object [("session_id", session_id_of (sessionData b));
                     ("candidate", candidate b)]) false
            (fun _ =>
               object [("success", Some (JBool true));
                       ("message", Some (JStr "ICE candidate sent successfully"))])
            "Failed to send ICE candidate" reply
        else if is_string (type b) "end-session" then
          relay auth "/session/end"
            (object [("session_id", session_id_of (sessionData b))]) true
            (fun data =>
               object [("success", Some (JBool true));
                       ("message", Some (JStr "Session ended successfully"));
                       ("summary", get "summary" data)])
            "Failed to end session" reply
        else
          {| resp := failure 400 (JStr "Invalid request type"); forwarded := None |}
    end.

(** The type of a request as a string, when it is one. *)
Definition type_name (b : body) : option string :=
  match type b with
  | Some (JStr s) => Some s
  | _ => None
  end.

(** The request's type is one the dispatch has a branch for. *)
Definition is_recognized (b : body) : bool :=
  existsb (is_string (type b)) recognized.

Definition invalid_type : response := failure 400 (JStr "Invalid request type").

(** The codec rule in the words of the specification: no message whose type
    is in the protocol's type set is rejected for its type. *)
Definition spec_codec : Prop :=
  forall req b reply s,
    bad_auth_header (auth_header req) = false -> json_body req = Some b ->
    s ∈ spec_types -> is_string (type b) s = true ->
    resp (POST req reply) <> invalid_type.

(** Sample data. *)
Definition example_body (t : string) : body :=
  {| userId := Some (JStr "user-1"); targetId := None;
     type := Some (JStr t);
     sessionData := Some (JObj [("sessionId", JStr "session-1")]);
     offer := None; answer := None; candidate := None |}.

Definition example_request (t : string) : request :=
  {| auth_header := Some "Bearer token"; json_body := Some (example_body t) |}.

(** *** Who takes part in a session, as the route sees it *)




(** Sample data: requests that name session-1, sent by [u] under the token
    [token], and a backend that accepts them. *)
Definition example_signal_body (t u : string) : body :=
  {| userId := Some (JStr u); targetId := None;
     type := Some (JStr t);
     sessionData := Some (JObj [("sessionId", JStr "session-1")]);
     offer := if String.eqb t "offer"
              then Some (JObj [("type", JStr "offer"); ("sdp", JStr "v=0")]) else None;
     answer := if String.eqb t "answer"
               then Some (JObj [("type", JStr "answer"); ("sdp", JStr "v=0")]) else None;
     candidate := None |}.

Definition example_signal (t u token : string) : request :=
  {| auth_header := Some (String.append "Bearer " token);
     json_body := Some (example_signal_body t u) |}.

Definition example_accepting : backend_reply :=
  Replied 200 (JObj [("session_id", JStr "session-1")]).


(** C sends [start-session] for the session of A and B. *)
Definition example_third_sender : request * backend_reply :=
  (example_signal "start-session" "user-c" "token-c", example_accepting).

End VideoCallRoute.

(** ** Client hooks for video calls ([useAuthApi]) and the [video_sessions] table *)

Module AuthApi.

(** A row of [video_sessions]; the primary key [id] is the key of the map.
    [id], [user_id] and [target_id] are of type UUID and are held the way the
    database prints them; [user_id] is NOT NULL, [target_id] is nullable. *)
Record video_session := {
  user_id : string;
  target_id : option string;
  status : string;
  started_at : Z;
  ended_at : option Z;
  duration : option Z;
  metadata : json
}.

(** What a hook reads from its environment during one call. *)
Record env := {
  access_token : option string;           (* supabase.auth.getSession() *)
  user : option string;                   (* user?.id *)
  reply : VideoCallRoute.backend_reply;   (* the session backend's answer *)
  now : Z;                                (* new Date() *)
  auth_uid : option string;               (* auth.uid() of the caller's database requests *)
  auth_users : gset string                (* the ids of auth.users *)
}.

(** *** The column type UUID *)

(** A hexadecimal digit, in lower case. *)
Definition hex_digit (c : Ascii.ascii) : option Ascii.ascii :=
  let n := Ascii.nat_of_ascii c in
  if ((48 <=? n) && (n <=? 57))%nat || ((97 <=? n) && (n <=? 102))%nat then Some c
  else if ((65 <=? n) && (n <=? 70))%nat then Some (Ascii.ascii_of_nat (n + 32))
  else None.

(** The digits of [n] bytes, the first of which is byte [i] of the sixteen: a
    hyphen may follow a byte of odd index other than the last. *)
Fixpoint uuid_digits (n i : nat) (src : list Ascii.ascii)
    : option (list Ascii.ascii * list Ascii.ascii) :=
  match n with
  | O => Some ([], src)
  | S n' =>
      match src with
      | a :: b :: rest =>
          x ← hex_digit a;
          y ← hex_digit b;
          let rest' :=
            match rest with
            | "-"%char :: after => if Nat.odd i && (i <? 15)%nat then after else rest
            | _ => rest
            end in
          ds ← uuid_digits n' (S i) rest';
          Some (x :: y :: ds.1, ds.2)
      | _ => None
      end
  end.

(** How a UUID is printed: lower-case digits in groups of 8, 4, 4, 4 and 12. *)
Definition uuid_out (ds : list Ascii.ascii) : string :=
  String.string_of_list_ascii
    (take 8 ds ++ "-"%char :: take 4 (drop 8 ds) ++ "-"%char :: take 4 (drop 12 ds) ++
     "-"%char :: take 4 (drop 16 ds) ++ "-"%char :: drop 20 ds).

(** The input syntax of the column type: 32 hexadecimal digits in either
    case, with an optional hyphen after any group of four digits, optionally
    in braces.  The result is the value as it is printed; [None] is "invalid
    input syntax for type uuid", on which the statement fails. *)
Definition uuid_in (s : string) : option string :=
  let src := String.list_ascii_of_string s in
  let braces := match src with "{"%char :: _ => true | _ => false end in
  ds ← uuid_digits 16 0 (if braces then drop 1 src else src);
  match braces, ds.2 with
  | false, [] => Some (uuid_out ds.1)
  | true, ["}"%char] => Some (uuid_out ds.1)
  | _, _ => None
  end.

(** [auth.uid()], as a UUID. *)
Definition caller (e : env) : option string := auth_uid e ≫= uuid_in.

(** [auth.uid() = user_id OR auth.uid() = target_id]: the USING clause of
    the select and update policies. *)
Definition is_participant (e : env) (r : video_session) : bool :=
  match caller e with
  | Some u => String.eqb u (user_id r) || bool_decide (target_id r = Some u)
  | None => false
  end.

(** A hook either returns the decoded response or throws. *)
Inductive result :=
| Returned (data : json)
| Thrown (reason : json).

(** [makeAuthenticatedRequest('/api/video-call', { method: 'POST', body })]:
    the request goes through the route handler above. *)
Definition makeAuthenticatedRequest (e : env) (b : VideoCallRoute.body) : result :=
  match access_token e with
  | None => Thrown (JStr "No authentication session found")
  | Some token =>
      let o :=
        VideoCallRoute.POST
          {| VideoCallRoute.auth_header := Some (String.append "Bearer " token);
             VideoCallRoute.json_body := Some b |}
          (reply e) in
      let response := VideoCallRoute.resp o in
      if (VideoCallRoute.status response =? 401)%nat then
        Thrown (JStr "Session expired. Please log in again.")
      else if negb (http_ok (VideoCallRoute.status response)) then
        Thrown
          (if js_truthy (get "message" (VideoCallRoute.content response))
           then default JNull (get "message" (VideoCallRoute.content response))
           else JStr (String.append "HTTP error! status: "
                        (pretty (VideoCallRoute.status response))))
      else Returned (VideoCallRoute.content response)
  end.

Definition request_body (e : env) (type : string) : VideoCallRoute.body :=
  {| VideoCallRoute.userId := JStr <$> user e;
     VideoCallRoute.targetId := None;
     VideoCallRoute.type := Some (JStr type);
     VideoCallRoute.sessionData := None;
     VideoCallRoute.offer := None;
     VideoCallRoute.answer := None;
     VideoCallRoute.candidate := None |}.

(** [{ sessionId }] *)
Definition session_ref (sessionId : string) : option json :=
  Some (object [("sessionId", Some (JStr sessionId))]).

(** [supabase.from('video_sessions').insert([row])] with [row] made of
    [id], [user_id: user?.id], [target_id], [status: 'active'], [started_at]
    and [metadata].  The table takes the row when [id], [user_id] and
    [target_id] are UUIDs ([user_id] is NOT NULL), the primary key is free,
    [user_id] and [target_id] are ids of [auth.users] (foreign keys) and
    [auth.uid() = user_id] (insert policy); otherwise the insert fails.  The
    hook does not look at the error. *)
Definition insert_session (db : gmap string video_session) (e : env) (id : option json)
    (targetId : string) (meta : json) : gmap string video_session :=
  match id, user e ≫= uuid_in, uuid_in targetId with
  | Some (JStr sid), Some u, Some t =>
      match uuid_in sid with
      | Some k =>
          if bool_decide (db !! k = None) && bool_decide (u ∈ auth_users e) &&
             bool_decide (t ∈ auth_users e) && bool_decide (caller e = Some u)
          then <[k := {| user_id := u; target_id := Some t; status := "active";
                         started_at := now e; ended_at := None; duration := None;
                         metadata := meta |}]> db
          else db
      | None => db
      end
  | _, _, _ => db
  end.

Definition startVideoCall (db : gmap string video_session) (e : env)
    (targetId : string) (sessionData : option json) : result * gmap string video_session :=
  let b := request_body e "start-session" in
  let result :=
    makeAuthenticatedRequest e
      {| VideoCallRoute.userId := VideoCallRoute.userId b;
         VideoCallRoute.targetId := Some (JStr targetId);
         VideoCallRoute.type := VideoCallRoute.type b;
         VideoCallRoute.sessionData := sessionData;
         VideoCallRoute.offer := None;
         VideoCallRoute.answer := None;
         VideoCallRoute.candidate := None |} in
  match result with
  | Returned data =>
      if js_truthy (get "success" data) && js_truthy (get "sessionId" data) then
        (result,
         insert_session db e (get "sessionId" data) targetId
           (if js_truthy sessionData then default (JObj []) sessionData else JObj []))
      else (result, db)
  | Thrown _ => (result, db)
  end.

Definition sendWebRTCOffer (e : env) (sessionId targetId : string) (offer : json) : result :=
  let b := request_body e "offer" in
  makeAuthenticatedRequest e
    {| VideoCallRoute.userId := VideoCallRoute.userId b;
       VideoCallRoute.targetId := Some (JStr targetId);
       VideoCallRoute.type := VideoCallRoute.type b;
       VideoCallRoute.sessionData := session_ref sessionId;
       VideoCallRoute.offer := Some offer;
       VideoCallRoute.answer := None;
       VideoCallRoute.candidate := None |}.

Definition sendWebRTCAnswer (e : env) (sessionId : string) (answer : json) : result :=
  let b := request_body e "answer" in
  makeAuthenticatedRequest e
    {| VideoCallRoute.userId := VideoCallRoute.userId b;
       VideoCallRoute.targetId := None;
       VideoCallRoute.type := VideoCallRoute.type b;
       VideoCallRoute.sessionData := session_ref sessionId;
       VideoCallRoute.offer := None;
       VideoCallRoute.answer := Some answer;
       VideoCallRoute.candidate := None |}.

Definition sendICECandidate (e : env) (sessionId : string) (candidate : json) : result :=
  let b := request_body e "ice-candidate" in
  makeAuthenticatedRequest e
    {| VideoCallRoute.userId := VideoCallRoute.userId b;
       VideoCallRoute.targetId := None;
       VideoCallRoute.type := VideoCallRoute.type b;
       VideoCallRoute.sessionData := session_ref sessionId;
       VideoCallRoute.offer := None;
       VideoCallRoute.answer := None;
       VideoCallRoute.candidate := Some candidate |}.

(** [{ status: 'ended', ended_at }] written over a row. *)
Definition mark_ended (t : Z) (r : video_session) : video_session :=
  {| user_id := user_id r; target_id := target_id r; status := "ended";
     started_at := started_at r; ended_at := Some t; duration := duration r;
     metadata := metadata r |}.

(** [.update({ status: 'ended', ended_at }).eq('id', sessionId)]: the update
    policy lets the statement see the row only when the caller is its
    [user_id] or [target_id]; a row it does not see is left alone, and so is
    the table when [sessionId] is no UUID. *)
Definition update_ended (db : gmap string video_session) (e : env) (sessionId : string)
    : gmap string video_session :=
  match uuid_in sessionId with
  | Some k => alter (fun r => if is_participant e r then mark_ended (now e) r else r) k db
  | None => db
  end.

Definition endVideoCall (db : gmap string video_session) (e : env)
    (sessionId : string) : result * gmap string video_session :=
  let b := request_body e "end-session" in
  let result :=
    makeAuthenticatedRequest e
      {| VideoCallRoute.userId := VideoCallRoute.userId b;
         VideoCallRoute.targetId := None;
         VideoCallRoute.type := VideoCallRoute.type b;
         VideoCallRoute.sessionData := session_ref sessionId;
         VideoCallRoute.offer := None;
         VideoCallRoute.answer := None;
         VideoCallRoute.candidate := None |} in
  match result with
  | Returned data =>
      if js_truthy (get "success" data)
      then (result, update_ended db e sessionId)
      else (result, db)
  | Thrown _ => (result, db)
  end.

(** The operations a client can run against the table. *)
Inductive action :=
| StartVideoCall (targetId : string) (sessionData : option json)
| SendWebRTCOffer (sessionId targetId : string) (offer : json)
| SendWebRTCAnswer (sessionId : string) (answer : json)
| SendICECandidate (sessionId : string) (candidate : json)
| EndVideoCall (sessionId : string).

Definition perform (db : gmap string video_session) (e : env) (a : action)
    : result * gmap string video_session :=
  match a with
  | StartVideoCall targetId sessionData => startVideoCall db e targetId sessionData
  | SendWebRTCOffer sid targetId offer => (sendWebRTCOffer e sid targetId offer, db)
  | SendWebRTCAnswer sid answer => (sendWebRTCAnswer e sid answer, db)
  | SendICECandidate sid candidate => (sendICECandidate e sid candidate, db)
  | EndVideoCall sid => endVideoCall db e sid
  end.


(** The backend accepts a request: a session exists, and the reply is a 2xx
    with a body. *)
Definition accepts (e : env) : bool :=
  match access_token e, reply e with
  | Some _, VideoCallRoute.Replied http data =>
      http_ok http && negb (VideoCallRoute.is_null data)
  | _, _ => false
  end.

Definition returned (r : result) : bool :=
  match r with Returned _ => true | Thrown _ => false end.

(** Idempotence of ending a session in the words of the specification: the
    second of two calls in a row succeeds and changes nothing. *)
Definition spec_end_idempotent : Prop :=
  forall db e1 e2 sid,
    returned (endVideoCall db e1 sid).1 = true ->
    returned (endVideoCall (endVideoCall db e1 sid).2 e2 sid).1 = true /\
    (endVideoCall (endVideoCall db e1 sid).2 e2 sid).2 = (endVideoCall db e1 sid).2.

(** Sample data: a patient, a therapist and a bystander, a backend that
    accepts, and a call in progress. *)
Definition example_patient : string := "6f1c2a9e-3b4d-4c5e-8f70-112233445566".
Definition example_therapist : string := "0b9d8c7a-6e5f-4a3b-9c2d-aabbccddeeff".
Definition example_bystander : string := "c0ffee00-1234-4abc-9def-0123456789ab".
Definition example_id : string := "3e4f5a6b-7c8d-4e9f-a0b1-c2d3e4f5a6b7".

Definition example_env_of (who : string) (t : Z) (data : json) : env :=
  {| access_token := Some "token"; user := Some who;
     reply := VideoCallRoute.Replied 200 data; now := t;
     auth_uid := Some who;
     auth_users := {[ example_patient; example_therapist; example_bystander ]} |}.

Definition example_env : Z -> json -> env := example_env_of example_patient.

Definition example_start_reply : json := JObj [("session_id", JStr example_id)].

Definition example_started : gmap string video_session :=
  (perform ∅ (example_env 500 example_start_reply)
     (StartVideoCall example_therapist None)).2.

Definition example_session : video_session :=
  {| user_id := example_patient; target_id := Some example_therapist; status := "active";
     started_at := 500; ended_at := None; duration := None; metadata := JObj [] |}.

Definition example_summary : json := JObj [("summary", JStr "12 minutes")].

Definition example_ended_once : gmap string video_session :=
  (endVideoCall example_started (example_env 1000 example_summary) example_id).2.

Definition example_ended_twice : gmap string video_session :=
  (endVideoCall example_ended_once (example_env 2000 example_summary) example_id).2.

(** Whether the route reads the backend's reply body when it answers the
    action's request with success. *)
Definition reads_reply (a : action) : bool :=
  match a with
  | SendWebRTCAnswer _ _ | SendICECandidate _ _ => false
  | _ => true
  end.

End AuthApi.

(** ** Object literals with spread *)

(** [o[k] = v] on the property list of an object: an existing property keeps
    its place, a new one goes last. *)
Fixpoint set_prop (k : string) (v : json) (fields : list (string * json))
    : list (string * json) :=
  match fields with
  | [] => [(k, v)]
  | (k', v') :: rest =>
      if String.eqb k k' then (k, v) :: rest else (k', v') :: set_prop k v rest
  end.

(** The properties of an object literal written left to right. *)
Definition literal (props : list (string * json)) : json :=
  JObj (foldl (fun acc kv => set_prop kv.1 kv.2 acc) [] props).

(** [a === b]: primitives compare by value; two objects or arrays that were
    decoded separately are never the same reference. *)
Definition strict_eq (a b : option json) : bool :=
  match a, b with
  | None, None => true
  | Some JNull, Some JNull => true
  | Some (JBool x), Some (JBool y) => Bool.eqb x y
  | Some (JNum x), Some (JNum y) => x =? y
  | Some (JStr x), Some (JStr y) => String.eqb x y
  | _, _ => false
  end.

(** ** Progress route (POST, GET) *)

Module Progress.

(** What the handler asks of a value decoded from the request body.  The
    values are JavaScript's (numbers are doubles, strings are sequences of
    UTF-16 code units, objects and arrays are references); the handler stores
    them as they are and looks at them in three ways only. *)
Class Decoded (V : Type) := {
  is_falsy : V -> bool;             (* [!v] *)
  string_of : V -> option string;   (* [Some s] when [v] is the string [s]: [v === 'pain'] *)
  key_of : V -> string              (* the property key of [o[v]] *)
}.

(** A value the store holds: one written in the source, or one received in
    a request. *)
Inductive held (V : Type) :=
| Written (j : json)
| Received (v : V).
Arguments Written {V} j.
Arguments Received {V} v.

(** The [overall] score: a number written in the source, or the value of
    [Math.round((a + b + c) / 3)].  The sum, the quotient and the rounding are
    JavaScript's, on whatever the three operands are; the expression is kept
    with its operands and is not evaluated. *)
Inductive score (V : Type) :=
| Literal (n : Z)
| RoundedMean (a b c : held V).
Arguments Literal {V} n.
Arguments RoundedMean {V} a b c.

(** An achievement: an object written in the source, or the object
    [{ id, ...value, description: 'Just now' }] built for a request, kept with
    its [id] and the [value] it spreads. *)
Inductive achievement (V : Type) :=
| Listed (j : json)
| Added (id : string) (value : V).
Arguments Listed {V} j.
Arguments Added {V} id value.

Record history_entry (V : Type) := {
  date : string;
  level : held V
}.
Arguments date {V} h.
Arguments level {V} h.

Record metric_data (V : Type) := {
  current : held V;
  initial : held V;
  history : list (history_entry V)
}.
Arguments current {V} m.
Arguments initial {V} m.
Arguments history {V} m.

Record patient (V : Type) := {
  overall : score V;
  pain : metric_data V;
  mobility : metric_data V;
  strength : metric_data V;
  weeklyActivity : list (held V);
  achievements : list (achievement V)
}.
Arguments overall {V} p.
Arguments pain {V} p.
Arguments mobility {V} p.
Arguments strength {V} p.
Arguments weeklyActivity {V} p.
Arguments achievements {V} p.

(** [const { patientId, metric, value } = body]; a property the body does
    not have is [None]. *)
Record body (V : Type) := {
  patientId : option V;
  metric : option V;
  value : option V
}.
Arguments patientId {V} b.
Arguments metric {V} b.
Arguments value {V} b.

(** The [data] of an answer: a patient record, or the value of a property
    that [progressData] inherits from [Object.prototype]. *)
Inductive payload (V : Type) :=
| PatientRecord (p : patient V)
| InheritedValue (name : string).
Arguments PatientRecord {V} p.
Arguments InheritedValue {V} name.

Record response (V : Type) := {
  status : nat;
  success : bool;
  data : option (payload V);
  error : option string
}.
Arguments status {V} r.
Arguments success {V} r.
Arguments data {V} r.
Arguments error {V} r.

(** The names every plain object inherits from [Object.prototype]; each of
    them holds a function, except [__proto__], which holds the prototype
    itself: all are truthy. *)
Definition Object_prototype : list string :=
  ["constructor"; "__defineGetter__"; "__defineSetter__"; "hasOwnProperty";
   "__lookupGetter__"; "__lookupSetter__"; "isPrototypeOf"; "propertyIsEnumerable";
   "toString"; "valueOf"; "__proto__"; "toLocaleString"].

Section Handler.
Context {V : Type} `{!Decoded V}.

Definition created (d : payload V) : response V :=
  {| status := 201; success := true; data := Some d; error := None |}.

Definition missing_fields : response V :=
  {| status := 400; success := false; data := None;
     error := Some "Missing required fields" |}.

(** The answer of the catch block. *)
Definition failed_update : response V :=
  {| status := 500; success := false; data := None;
     error := Some "Failed to update progress data" |}.

(** The record created for a patient that has none. *)
Definition new_patient : patient V :=
  {| overall := Literal 0;
     pain := {| current := Written (JNum 0); initial := Written (JNum 0); history := [] |};
     mobility := {| current := Written (JNum 0); initial := Written (JNum 0); history := [] |};
     strength := {| current := Written (JNum 0); initial := Written (JNum 0); history := [] |};
     weeklyActivity := [];
     achievements := [] |}.

(** [!v] for a property that may be missing. *)
Definition missing_or_falsy (v : option V) : bool :=
  match v with
  | Some x => is_falsy x
  | None => true
  end.

(** [metric === s] *)
Definition metric_is (m : option V) (s : string) : bool :=
  bool_decide (m ≫= string_of = Some s).

(** [m.current = value; m.history.push({ date, level: value })] *)
Definition record_level (today : string) (v : V) (m : metric_data V) : metric_data V :=
  {| current := Received v; initial := initial m;
     history := history m ++ [{| date := today; level := Received v |}] |}.

(** [patientProgress.overall = Math.round((pain.current + mobility.current
    + strength.current) / 3)] *)
Definition recalculate (p : patient V) : patient V :=
  {| overall := RoundedMean (current (pain p)) (current (mobility p)) (current (strength p));
     pain := pain p; mobility := mobility p; strength := strength p;
     weeklyActivity := weeklyActivity p; achievements := achievements p |}.

(** The branches of lines 192-216 on the record [p] of the patient. *)
Definition update (today : string) (m : option V) (v : V) (p : patient V) : patient V :=
  if metric_is m "pain" then
    recalculate
      {| overall := overall p; pain := record_level today v (pain p);
         mobility := mobility p; strength := strength p;
         weeklyActivity := weeklyActivity p; achievements := achievements p |}
  else if metric_is m "mobility" then
    recalculate
      {| overall := overall p; pain := pain p;
         mobility := record_level today v (mobility p); strength := strength p;
         weeklyActivity := weeklyActivity p; achievements := achievements p |}
  else if metric_is m "strength" then
    recalculate
      {| overall := overall p; pain := pain p; mobility := mobility p;
         strength := record_level today v (strength p);
         weeklyActivity := weeklyActivity p; achievements := achievements p |}
  else if metric_is m "weeklyActivity" then
    {| overall := overall p; pain := pain p; mobility := mobility p;
       strength := strength p;
       weeklyActivity := weeklyActivity p ++ [Received v];
       achievements := achievements p |}
  else if metric_is m "achievement" then
    {| overall := overall p; pain := pain p; mobility := mobility p;
       strength := strength p; weeklyActivity := weeklyActivity p;
       achievements :=
         achievements p ++ [Added (pretty (S (length (achievements p)))) v] |}
  else p.

(** Whether the branch taken for [metric] reads a property of the patient's
    record. *)
Definition reads_record (m : option V) : bool :=
  metric_is m "pain" || metric_is m "mobility" || metric_is m "strength" ||
  metric_is m "weeklyActivity" || metric_is m "achievement".

(** The handler.  [request] is [None] when [request.json()] throws or yields
    [null]; [today] is [new Date().toISOString().split('T')[0]].
    [progressData] holds the own properties of the module's object.  A
    [patientId] whose key names a property inherited from [Object.prototype]
    finds that property's value: no record is created, the branches that read
    the record throw on it (the catch block answers 500), and the others
    answer 201 with that value as [data]. *)
Definition POST (progressData : gmap string (patient V)) (today : string)
    (request : option (body V)) : response V * gmap string (patient V) :=
  match request with
  | None => (failed_update, progressData)
  | Some b =>
      match patientId b, value b with
      | Some pid, Some v =>
          if is_falsy pid || missing_or_falsy (metric b) then (missing_fields, progressData)
          else
            let stored p :=
              (created (PatientRecord (update today (metric b) v p)),
               <[key_of pid := update today (metric b) v p]> progressData) in
            match progressData !! key_of pid with
            | Some patientProgress => stored patientProgress
            | None =>
                if bool_decide (key_of pid ∈ Object_prototype) then
                  if reads_record (metric b) then (failed_update, progressData)
                  else (created (InheritedValue (key_of pid)), progressData)
                else stored new_patient
            end
      | _, _ => (missing_fields, progressData)
      end
  end.

Definition levels (start : list (string * Z)) : list (history_entry V) :=
  (fun dl => {| date := dl.1; level := Written (JNum dl.2) |}) <$> start.

Definition activity (day exercise st : string) (difficulty duration : Z) : held V :=
  Written (JObj [("day", JStr day); ("exercise", JStr exercise); ("status", JStr st);
                 ("difficulty", JNum difficulty); ("duration", JNum duration)]).

Definition listed (id title description icon : string) : achievement V :=
  Listed (JObj [("id", JStr id); ("title", JStr title); ("description", JStr description);
                ("icon", JStr icon)]).

(** The module-level mock data. *)
Definition progressData : gmap string (patient V) :=
  {[ "1" :=
     {| overall := Literal 72;
        pain := {| current := Written (JNum 3); initial := Written (JNum 8);
                   history := levels [("2023-12-01", 8); ("2023-12-15", 7); ("2024-01-01", 6);
                                      ("2024-01-15", 5); ("2024-02-01", 4); ("2024-02-15", 3)] |};
        mobility := {| current := Written (JNum 68); initial := Written (JNum 20);
                       history := levels [("2023-12-01", 20); ("2023-12-15", 30); ("2024-01-01", 40);
                                          ("2024-01-15", 50); ("2024-02-01", 60); ("2024-02-15", 68)] |};
        strength := {| current := Written (JNum 65); initial := Written (JNum 30);
                       history := levels [("2023-12-01", 30); ("2023-12-15", 35); ("2024-01-01", 45);
                                          ("2024-01-15", 50); ("2024-02-01", 60); ("2024-02-15", 65)] |};
        weeklyActivity :=
          [activity "Monday" "Knee Exercises" "Completed" 8 20;
           activity "Tuesday" "Stretching Routine" "Completed" 6 15;
           activity "Wednesday" "Strength Training" "Completed" 9 25;
           activity "Thursday" "Balance Exercises" "Missed" 7 15;
           activity "Friday" "Cardio Session" "Upcoming" 8 20;
           activity "Saturday" "Rest Day" "N/A" 0 0;
           activity "Sunday" "Light Stretching" "Upcoming" 4 10];
        achievements :=
          [listed "1" "Perfect Week Streak" "3 days ago" "trophy";
           listed "2" "Pain Reduction Milestone" "1 week ago" "zap";
           listed "3" "Form Master Badge" "2 weeks ago" "award"] |} ]}.


End Handler.

(** *** The GET handler *)

(** What the GET handler needs of the runtime beyond the store: whether the
    number held as [overall] is truthy when it is the value of
    [Math.round((a + b + c) / 3)], and what reading a property of one of the
    values inherited from [Object.prototype] gives ([None]: the read throws;
    [Some t]: it yields a value of truthiness [t]). *)
Class Runtime (V : Type) := {
  rounded_truthy : held V -> held V -> held V -> bool;
  builtin_property : string -> string -> option bool
}.

(** What [patientProgress[metric]] can hold. *)
Inductive metric_value (V : Type) :=
| OverallValue (s : score V)
| LevelData (m : metric_data V)
| Activities (l : list (held V))
| Achievements (l : list (achievement V))
| InheritedProperty (name : string)          (* of a patient record *)
| BuiltinProperty (name metric : string).    (* of an inherited value *)
Arguments OverallValue {V} s.
Arguments LevelData {V} m.
Arguments Activities {V} l.
Arguments Achievements {V} l.
Arguments InheritedProperty {V} name.
Arguments BuiltinProperty {V} name metric.

Inductive get_payload (V : Type) :=
| WholeRecord (p : patient V)
| WholeInherited (name : string)
| OneMetric (v : metric_value V).
Arguments WholeRecord {V} p.
Arguments WholeInherited {V} name.
Arguments OneMetric {V} v.

Record get_response (V : Type) := {
  get_status : nat;
  get_success : bool;
  get_data : option (get_payload V);
  get_error : option string
}.
Arguments get_status {V} _.
Arguments get_success {V} _.
Arguments get_data {V} _.
Arguments get_error {V} _.

Section Reader.
Context {V : Type} `{!Runtime V}.

Definition refused (msg : string) (st : nat) : get_response V :=
  {| get_status := st; get_success := false; get_data := None; get_error := Some msg |}.

Definition found (d : get_payload V) : get_response V :=
  {| get_status := 200; get_success := true; get_data := Some d; get_error := None |}.

(** [patientProgress[metric]] on a patient record: its own properties, then
    the inherited ones. *)
Definition property (m : string) (p : patient V) : option (metric_value V) :=
  if String.eqb m "overall" then Some (OverallValue (overall p))
  else if String.eqb m "pain" then Some (LevelData (pain p))
  else if String.eqb m "mobility" then Some (LevelData (mobility p))
  else if String.eqb m "strength" then Some (LevelData (strength p))
  else if String.eqb m "weeklyActivity" then Some (Activities (weeklyActivity p))
  else if String.eqb m "achievements" then Some (Achievements (achievements p))
  else if bool_decide (m ∈ Object_prototype) then Some (InheritedProperty m)
  else None.

(** [!!metricData]: a number is truthy unless it is 0 (or NaN); objects,
    arrays and functions are truthy. *)
Definition is_truthy (v : metric_value V) : bool :=
  match v with
  | OverallValue (Literal n) => negb (n =? 0)
  | OverallValue (RoundedMean a b c) => rounded_truthy a b c
  | BuiltinProperty name metric => default false (builtin_property name metric)
  | _ => true
  end.

(** The handler; [patientId] and [metric] are [searchParams.get(..)]. *)
Definition GET (progressData : gmap string (patient V)) (patientId metric : option string)
    : get_response V :=
  if negb (truthy patientId) then refused "Patient ID is required" 400
  else
    let name := default "" patientId in
    let answer metricData :=
      if is_truthy metricData then found (OneMetric metricData)
      else refused "Metric not found" 404 in
    match progressData !! name with
    | Some patientProgress =>
        if truthy metric then
          match property (default "" metric) patientProgress with
          | Some metricData => answer metricData
          | None => refused "Metric not found" 404
          end
        else found (WholeRecord patientProgress)
    | None =>
        if bool_decide (name ∈ Object_prototype) then
          if truthy metric then
            match builtin_property name (default "" metric) with
            | Some _ => answer (BuiltinProperty name (default "" metric))
            | None => refused "Failed to fetch progress data" 500
            end
          else found (WholeInherited name)
        else refused "Patient progress data not found" 404
    end.

End Reader.

(** Requests whose three fields are strings: the empty string is falsy, a
    string is its own property key. *)
#[export] Instance string_decoded : Decoded string :=
  {| is_falsy s := String.eqb s ""; string_of s := Some s; key_of s := s |}.

(** A runtime to run the examples with; none of them reaches a question it
    is asked. *)
#[export] Instance sample_runtime : Runtime string :=
  {| rounded_truthy _ _ _ := true; builtin_property _ _ := None |}.


Definition example_activity : body string :=
  {| patientId := Some "17"; metric := Some "weeklyActivity"; value := Some "Walk" |}.

End Progress.

(** ** Appointments route (POST) *)

Module Appointments.

Record response := {
  status : nat;
  content : json
}.

Definition failure (st : nat) (msg : string) : response :=
  {| status := st;
     content := JObj [("success", JBool false); ("error", JStr msg)] |}.

Definition requiredFields : list string :=
  ["patientId"; "doctorId"; "date"; "time"; "type"].

(** The validation loop: the first required field that is falsy. *)
Definition first_missing (appointmentData : json) : option string :=
  head (filter (fun f => js_truthy (get f appointmentData) = false) requiredFields).

(** The predicate passed to [appointments.find]. *)
Definition clashes (appointmentData apt : json) : bool :=
  strict_eq (get "doctorId" apt) (get "doctorId" appointmentData) &&
  strict_eq (get "date" apt) (get "date" appointmentData) &&
  strict_eq (get "time" apt) (get "time" appointmentData) &&
  negb (strict_eq (get "status" apt) (Some (JStr "Cancelled"))).

Definition conflictingAppointment (appointments : list json) (appointmentData : json)
    : option json :=
  head (filter (fun apt => clashes appointmentData apt = true) appointments).

(** [a || d] *)
Definition js_or (a : option json) (d : json) : json :=
  if js_truthy a then default d a else d.

Definition fields_of (j : json) : list (string * json) :=
  match j with JObj fields => fields | _ => [] end.

Definition newAppointment (appointments : list json) (appointmentData : json)
    (now : string) : json :=
  literal ([("id", JStr (pretty (S (length appointments))))]
           ++ fields_of appointmentData
           ++ [("status", js_or (get "status" appointmentData) (JStr "Pending"));
               ("reminderSent", JBool false);
               ("insuranceVerified", js_or (get "insuranceVerified" appointmentData) (JBool false));
               ("createdAt", JStr now);
               ("updatedAt", JStr now)]).

(** The handler: [appointmentData] is the decoded body ([None] when decoding
    throws), [now] is [new Date().toISOString()].  Indexing [null] throws,
    which the catch answers with a 500. *)
Definition POST (appointments : list json) (now : string) (body : option json)
    : response * list json :=
  match body with
  | None | Some JNull => (failure 500 "Failed to create appointment", appointments)
  | Some appointmentData =>
      match first_missing appointmentData with
      | Some field =>
          (failure 400 (String.append "Missing required field: " field), appointments)
      | None =>
          match conflictingAppointment appointments appointmentData with
          | Some _ => (failure 409 "Doctor is not available at this time", appointments)
          | None =>
              let apt := newAppointment appointments appointmentData now in
              ({| status := 201;
                  content := JObj [("success", JBool true); ("data", apt);
                                   ("message", JStr "Appointment scheduled successfully")] |},
               appointments ++ [apt])
          end
      end
  end.

(** The store holds an appointment that clashes with the request: same
    doctor, date and time, and not cancelled. *)
Definition conflict (appointments : list json) (appointmentData : json) : Prop :=
  exists apt, apt ∈ appointments /\ clashes appointmentData apt = true.

(** Every required field is present and truthy. *)
Definition complete (appointmentData : json) : Prop :=
  Forall (fun f => js_truthy (get f appointmentData) = true) requiredFields.

Definition has_conflict (appointments : list json) (appointmentData : json) : bool :=
  existsb (clashes appointmentData) appointments.

(** The module-level mock data; the dates are computed from the clock when
    the module is loaded: [d3], [d10] and [d17] are the ISO dates 3, 10 and 17
    days after [now]. *)
Definition appointments (d3 d10 d17 now : string) : list json :=
  [JObj [("id", JStr "1"); ("patientId", JStr "1"); ("doctorId", JStr "2");
         ("date", JStr d3); ("time", JStr "10:00 AM");
         ("doctor", JStr "Dr. Sarah Miller"); ("doctorImage", JStr "/caring-doctor.png");
         ("type", JStr "Shoulder Assessment"); ("mode", JStr "In-person");
         ("location", JStr "Main Clinic - Room 305"); ("duration", JStr "45 minutes");
         ("status", JStr "Confirmed");
         ("notes", JStr "Please arrive 15 minutes early to complete paperwork");
         ("insuranceVerified", JBool true); ("reminderSent", JBool false);
         ("videoLink", JNull); ("createdAt", JStr now); ("updatedAt", JStr now)];
   JObj [("id", JStr "2"); ("patientId", JStr "1"); ("doctorId", JStr "2");
         ("date", JStr d10); ("time", JStr "2:30 PM");
         ("doctor", JStr "Dr. Sarah Miller"); ("doctorImage", JStr "/caring-doctor.png");
         ("type", JStr "Follow-up Session"); ("mode", JStr "Virtual");
         ("location", JStr "Video Conference"); ("duration", JStr "30 minutes");
         ("status", JStr "Pending");
         ("notes", JStr "Link will be sent 30 minutes before appointment");
         ("insuranceVerified", JBool true); ("reminderSent", JBool false);
         ("videoLink", JStr "https://meet.kineticai.com/room/abc123");
         ("createdAt", JStr now); ("updatedAt", JStr now)];
   JObj [("id", JStr "3"); ("patientId", JStr "1"); ("doctorId", JStr "3");
         ("date", JStr d17); ("time", JStr "11:00 AM");
         ("doctor", JStr "Dr. Michael Chen"); ("doctorImage", JStr "/friendly-receptionist.png");
         ("type", JStr "Progress Evaluation"); ("mode", JStr "In-person");
         ("location", JStr "Main Clinic - Room 201"); ("duration", JStr "60 minutes");
         ("status", JStr "Confirmed");
         ("notes", JStr "Bring your exercise log and any questions");
         ("insuranceVerified", JBool true); ("reminderSent", JBool true);
         ("videoLink", JNull); ("createdAt", JStr now); ("updatedAt", JStr now)]].

(** The conflict rule as an equivalence over all requests. *)
Definition spec_conflict : Prop :=
  forall appointments now appointmentData,
    status (POST appointments now (Some appointmentData)).1 = 409%nat <->
    conflict appointments appointmentData.

(** Sample data: the store on 1 March 2024, a request for a taken slot, and
    the same request without its [patientId]. *)
Definition example_store : list json :=
  appointments "2024-03-04T09:00:00.000Z" "2024-03-11T09:00:00.000Z"
    "2024-03-18T09:00:00.000Z" "2024-03-01T09:00:00.000Z".

Definition example_slot : list (string * json) :=
  [("doctorId", JStr "2"); ("date", JStr "2024-03-04T09:00:00.000Z");
   ("time", JStr "10:00 AM"); ("type", JStr "Knee Assessment")].

Definition example_booking : json := JObj (("patientId", JStr "7") :: example_slot).

Definition example_incomplete : json := JObj example_slot.

(** *** The other handlers of the route, and the requests of its client *)

(** Objects as the handlers build and decode them have one entry per key. *)
Definition well_formed (appointments : list json) : Prop :=
  Forall (fun apt => NoDup (keys apt)) appointments.

Definition listing (found : list json) : response :=
  {| status := 200; content := JObj [("success", JBool true); ("data", JArr found)] |}.

(** [apt.status] when it is a string. *)
Definition status_string (apt : json) : option string :=
  match get "status" apt with
  | Some (JStr s) => Some s
  | _ => None
  end.

(** The GET handler; [patientId] and [status] are the query parameters
    ([None]: absent) and [toLowerCase] is [String.prototype.toLowerCase].
    Calling [toLowerCase] on a status that is not a string throws, which the
    catch answers with a 500. *)
Definition GET (toLowerCase : string -> string) (appointments : list json)
    (patientId status : option string) : response :=
  let ofPatient :=
    if truthy patientId
    then filter (fun apt => strict_eq (get "patientId" apt) (JStr <$> patientId) = true)
           appointments
    else appointments in
  if truthy status then
    if forallb (fun apt => bool_decide (is_Some (status_string apt))) ofPatient then
      listing
        (filter (fun apt =>
                   String.eqb (toLowerCase (default "" (status_string apt)))
                              (toLowerCase (default "" status)) = true)
           ofPatient)
    else failure 500 "Failed to fetch appointments"
  else listing ofPatient.

(** [const { id, ...updateData } = body] *)
Definition without_id (fields : list (string * json)) : list (string * json) :=
  filter (fun kv => kv.1 <> "id") fields.

(** [a || b] where both may be [undefined]. *)
Definition js_or_undefined (a b : option json) : option json :=
  if js_truthy a then a else b.

(** [appointments.findIndex(apt => apt.id === id)] *)
Definition findIndex (id : option json) (appointments : list json) : option (nat * json) :=
  list_find (fun apt => strict_eq (get "id" apt) id = true) appointments.

(** The predicate of the conflict check of PUT. *)
Definition clashes_update (id : option json) (updateData : list (string * json))
    (old apt : json) : bool :=
  negb (strict_eq (get "id" apt) id) &&
  strict_eq (get "doctorId" apt)
    (js_or_undefined (assoc "doctorId" updateData) (get "doctorId" old)) &&
  strict_eq (get "date" apt) (js_or_undefined (assoc "date" updateData) (get "date" old)) &&
  strict_eq (get "time" apt) (js_or_undefined (assoc "time" updateData) (get "time" old)) &&
  negb (strict_eq (get "status" apt) (Some (JStr "Cancelled"))).

(** [{ ...appointments[appointmentIndex], ...updateData, updatedAt }] *)
Definition updated (old : json) (updateData : list (string * json)) (now : string) : json :=
  literal (fields_of old ++ updateData ++ [("updatedAt", JStr now)]).

(** The PUT handler. *)
Definition PUT (appointments : list json) (now : string) (body : option json)
    : response * list json :=
  match body with
  | None | Some JNull => (failure 500 "Failed to update appointment", appointments)
  | Some b =>
      let id := get "id" b in
      let updateData := without_id (fields_of b) in
      if negb (js_truthy id) then (failure 400 "Appointment ID is required", appointments)
      else
        match findIndex id appointments with
        | None => (failure 404 "Appointment not found", appointments)
        | Some (appointmentIndex, old) =>
            if (js_truthy (assoc "date" updateData) || js_truthy (assoc "time" updateData))
               && existsb (clashes_update id updateData old) appointments
            then (failure 409 "Doctor is not available at this time", appointments)
            else
              let apt := updated old updateData now in
              ({| status := 200;
                  content := JObj [("success", JBool true); ("data", apt);
                                   ("message", JStr "Appointment updated successfully")] |},
               <[appointmentIndex := apt]> appointments)
        end
  end.

(** The DELETE handler; [id] is the query parameter. *)
Definition DELETE (appointments : list json) (id : option string) : response * list json :=
  if negb (truthy id) then (failure 400 "Appointment ID is required", appointments)
  else
    match findIndex (JStr <$> id) appointments with
    | None => (failure 404 "Appointment not found", appointments)
    | Some (appointmentIndex, _) =>
        ({| status := 200;
            content := JObj [("success", JBool true);
                             ("message", JStr "Appointment deleted successfully")] |},
         delete appointmentIndex appointments)
    end.

(** The body [updateAppointment(id, updates)] of the appointments manager
    sends: [{ id, ...updates }]. *)
Definition update_request (id : string) (updates : list (string * json)) : json :=
  literal (("id", JStr id) :: updates).

(** [cancelAppointment(id)]: [updateAppointment(id, { status: 'Cancelled' })]. *)
Definition cancel_request (id : string) : json :=
  update_request id [("status", JStr "Cancelled")].

(** A value that [===] relates to itself: anything but an object or array. *)
Definition primitive (v : option json) : Prop := strict_eq v v = true.

(** Sample data: a request for a free slot that tries to set [reminderSent]. *)
Definition example_free_booking : json :=
  JObj [("patientId", JStr "7"); ("doctorId", JStr "2");
        ("date", JStr "2024-03-04T09:00:00.000Z"); ("time", JStr "4:00 PM");
        ("type", JStr "Knee Assessment"); ("reminderSent", JBool true)].

End Appointments.

(** ** [analyzePoseData] of the client hooks *)

Module PoseClient.

(** What the hook reads from its environment. *)
Record env := {
  access_token : option string;   (* supabase.auth.getSession() in the browser *)
  user : option string;           (* user?.id *)
  client_time : Z                 (* new Date() of the hook's own insert *)
}.

Inductive result :=
| Returned (r : PoseEstimation.response)
| Thrown (reason : string).

(** The request as the route sees it: the hook sets the authorization
    header; everything else the route reads is in [s]. *)
Definition request (token : string) (s : PoseEstimation.submission)
    : PoseEstimation.submission :=
  {| PoseEstimation.auth_session := PoseEstimation.auth_session s;
     PoseEstimation.auth_header := Some (String.append "Bearer " token);
     PoseEstimation.json_body := PoseEstimation.json_body s;
     PoseEstimation.select_data := PoseEstimation.select_data s;
     PoseEstimation.current_time := PoseEstimation.current_time s;
     PoseEstimation.reply := PoseEstimation.reply s;
     PoseEstimation.store_time := PoseEstimation.store_time s;
     PoseEstimation.storage_error := PoseEstimation.storage_error s |}.






End PoseClient.

(** ** Session queries of the client hooks *)

Module SessionQueries.
Import AuthApi.

(** Where a query's answer comes from: the [video_sessions] table, or the
    route the hook falls back to. *)
Inductive source (A : Type) :=
| FromTable (data : A)
| FromApi.
Arguments FromTable {A} data.
Arguments FromApi {A}.

(** [getVideoCallSession(sessionId)]: [.eq('id', sessionId).single()] reports
    an error when [sessionId] is no UUID and when it finds no row; the select
    policy hides a row from a caller who is neither its [user_id] nor its
    [target_id].  [select_error] stands for any other error of the query. *)
Definition getVideoCallSession (db : gmap string video_session) (e : env)
    (select_error : bool) (sessionId : string) : source video_session :=
  if select_error then FromApi
  else match uuid_in sessionId ≫= (db !!.) with
       | Some row => if is_participant e row then FromTable row else FromApi
       | None => FromApi
       end.

(** [.eq('status', 'active').or(`user_id.eq.${uid},target_id.eq.${uid}`)] *)
Definition is_active_for (uid : string) (row : video_session) : bool :=
  String.eqb (status row) "active" &&
  (String.eqb (user_id row) uid || bool_decide (target_id row = Some uid)).

(** [getActiveVideoCallSessions()]: the filter compares the two UUID columns
    with [user?.id], which is an error when that is no UUID; the select policy
    applies to every row. *)
Definition getActiveVideoCallSessions (db : gmap string video_session) (e : env)
    (select_error : bool) : source (gmap string video_session) :=
  if select_error then FromApi
  else match user e ≫= uuid_in with
       | Some uid =>
           FromTable
             (filter (fun kv => is_participant e kv.2 && is_active_for uid kv.2 = true) db)
       | None => FromApi
       end.

End SessionQueries.

(** * Properties *)

(** ** Helpers *)

Lemma is_bearer_template token : is_bearer (String.append "Bearer " token) = true.
Proof. unfold is_bearer. simpl. by destruct token. Qed.

Lemma bad_auth_header_template token :
  bad_auth_header (Some (String.append "Bearer " token)) = false.
Proof. unfold bad_auth_header. rewrite is_bearer_template. reflexivity. Qed.

(** ** Pose-analysis route *)

Section PoseEstimationFacts.
Import PoseEstimation.

Lemma latest_is_max rows r :
  r ∈ rows -> exists r', latest rows = Some r' /\ created_at r <= created_at r'.
Proof.
  induction rows as [|x rows IH]; intros Hin.
  - by apply elem_of_nil in Hin.
  - apply elem_of_cons in Hin as [->|Hin]; simpl.
    + destruct (latest rows) as [r'|]; [|eexists; split; [done|lia]].
      destruct (Z.ltb_spec (created_at x) (created_at r')); eexists; (split; [done|lia]).
    + destruct (IH Hin) as (r' & -> & Hle).
      destruct (Z.ltb_spec (created_at x) (created_at r')); eexists; (split; [done|lia]).
Qed.

Lemma recent_analysis_bound db sid uid r :
  r ∈ db -> matches sid uid r = true ->
  exists r', recent_analysis db sid uid = Some r' /\ created_at r <= created_at r'.
Proof.
  intros Hin Hm. apply latest_is_max. by apply list_elem_of_filter.
Qed.

Lemma POST_keeps_rows db s r : r ∈ db -> r ∈ db_after (POST db s).
Proof.
  intros Hin. unfold POST.
  repeat (case_match; simpl; try done).
  apply elem_of_app; by left.
Qed.

Lemma serve_all_keeps_rows subs db r : r ∈ db -> r ∈ serve_all db subs.
Proof.
  revert db. induction subs as [|s subs IH]; intros db Hin; simpl; [done|].
  apply IH. by apply POST_keeps_rows.
Qed.

Lemma throttled_by_row db uid s b sid r :
  sessionId b = Some sid -> truthy (Some sid) = true -> select_data s = true ->
  r ∈ db -> matches sid uid r = true -> current_time s - created_at r < 500 ->
  throttled db uid s b = true.
Proof.
  intros Hsid Ht Hsel Hin Hm Hlt. unfold throttled.
  rewrite Hsid, Ht, Hsel. simpl.
  destruct (recent_analysis_bound db sid uid r Hin Hm) as (r' & -> & Hle).
  apply Z.ltb_lt. lia.
Qed.

(** The row written by an accepted submission whose analysis succeeded. *)
Lemma POST_stores_row db s uid b http data :
  auth_session s = Some uid -> json_body s = inl b ->
  accepted (POST db s) = true ->
  reply s = Replied http data -> http_ok http = true -> storage_error s = false ->
  exists r, r ∈ db_after (POST db s) /\ user_id r = uid /\
            session_id r = sessionId b /\ created_at r = store_time s.
Proof.
  intros Hu Hb Hacc Hr Hok Hst. revert Hacc. unfold accepted, POST.
  rewrite Hu, Hb, Hr, Hok, Hst.
  destruct (bad_auth_header _); simpl; [done|].
  destruct (throttled _ _ _ _); simpl; [done|]. intros _.
  eexists. split; [apply elem_of_app; right; apply list_elem_of_singleton; reflexivity|].
  done.
Qed.

(** What the duplicate check does achieve: two submissions by the same user
    for the same session, served one after the other, possibly with others in
    between.  If the earlier one was accepted, the backend answered 2xx and its
    analysis row was stored no earlier than the submission was received, the
    duplicate query of the later one is answered, and the later one is received
    less than 500ms after the earlier, then the later one is not forwarded: it
    gets the "Throttled - using previous analysis" answer and leaves the table
    as it was. *)
Lemma pose_throttled_after_stored_analysis
    db s1 between s2 uid sid b1 b2 http data :
  auth_session s1 = Some uid -> auth_session s2 = Some uid ->
  bad_auth_header (auth_header s2) = false ->
  json_body s1 = inl b1 -> json_body s2 = inl b2 ->
  sessionId b1 = Some sid -> sessionId b2 = Some sid -> truthy (Some sid) = true ->
  accepted (POST db s1) = true ->
  reply s1 = Replied http data -> http_ok http = true -> storage_error s1 = false ->
  select_data s2 = true ->
  current_time s1 <= store_time s1 ->
  current_time s2 - current_time s1 < 500 ->
  let db2 := serve_all (db_after (POST db s1)) between in
  resp (POST db2 s2) = throttled_response /\
  accepted (POST db2 s2) = false /\
  db_after (POST db2 s2) = db2.
Proof.
  intros Hu1 Hu2 Hauth Hb1 Hb2 Hs1 Hs2 Ht Hacc Hr Hok Hst Hsel Hclock Hnear db2.
  destruct (POST_stores_row db s1 uid b1 http data Hu1 Hb1 Hacc Hr Hok Hst)
    as (r & Hin & Hruid & Hrsid & Hrt).
  assert (Hin2 : r ∈ db2) by (by apply serve_all_keeps_rows).
  assert (Hm : matches sid uid r = true).
  { unfold matches. rewrite Hrsid, Hs1, Hruid, String.eqb_refl.
    by rewrite bool_decide_eq_true_2. }
  assert (Hth : throttled db2 uid s2 b2 = true).
  { eapply throttled_by_row; eauto. lia. }
  unfold accepted, POST. rewrite Hu2, Hauth, Hb2, Hth. done.
Qed.

Lemma pose_throttled_after_stored_analysis_witness :
  resp (POST (serve_all (db_after (POST [] pose_example_first)) []) pose_example_second)
  = throttled_response /\
  accepted (POST (serve_all (db_after (POST [] pose_example_first)) []) pose_example_second)
  = false /\
  db_after (POST (serve_all (db_after (POST [] pose_example_first)) []) pose_example_second)
  = serve_all (db_after (POST [] pose_example_first)) [].
Proof.
  apply (pose_throttled_after_stored_analysis [] pose_example_first [] pose_example_second
           "user-1" "session-1" pose_example_body pose_example_body 200 pose_example_data);
    try reflexivity; vm_compute; congruence.
Defined.

(** C1: the duplicate check (whose comments read "prevent rapid submissions"
    and "Prevent submissions more frequent than every 500ms") misses a
    submission that left no analysis row.  Two frames of one user for one
    session are received 100ms apart, and the backend answers the first with
    503: both are forwarded to the backend, the second is not answered
    "Throttled", and the 503 left no row for the check to find. *)
Theorem pose_rapid_submissions_both_forwarded :
  current_time pose_example_retry - current_time pose_example_rejected = 100 /\
  auth_session pose_example_retry = auth_session pose_example_rejected /\
  json_body pose_example_retry = json_body pose_example_rejected /\
  accepted (POST [] pose_example_rejected) = true /\
  status (resp (POST [] pose_example_rejected)) = 503%nat /\
  db_after (POST [] pose_example_rejected) = [] /\
  accepted (POST (db_after (POST [] pose_example_rejected)) pose_example_retry) = true /\
  resp (POST (db_after (POST [] pose_example_rejected)) pose_example_retry)
  <> throttled_response.
Proof. vm_compute. repeat split; congruence. Qed.

(** The throttle in the words of the specification fails on the same two
    frames. *)
Lemma pose_throttle_counterexample : ~ spec_throttle.
Proof.
  intros H.
  pose (bad := {| detail := None; b_analysis := None; b_feedback := None; b_score := None |}).
  destruct (H [] (pose_example_submission 1000 (Replied 503 bad))
              (pose_example_submission 1100 (Replied 200 pose_example_data))
              pose_example_body pose_example_body "session-1") as [_ Hacc];
    try reflexivity; try (vm_compute; congruence); [vm_compute; split; congruence|].
  vm_compute in Hacc. discriminate.
Qed.



(** The scenario of the specification: frame 5 is accepted, frame 6 comes
    80ms later and is throttled, frame 7 comes 600ms after frame 5 and is
    accepted (the analysis of frame 5 was stored 40ms after its receipt). *)
Example pose_three_frames_example :
  accepted (POST [] pose_example_first) = true /\
  resp (POST (db_after (POST [] pose_example_first)) pose_example_second)
  = throttled_response /\
  accepted (POST (serve_all [] [pose_example_first; pose_example_second])
              (pose_example_submission 1600 (Replied 200 pose_example_data))) = true.
Proof. vm_compute. done. Qed.


End PoseEstimationFacts.

(** ** Socket provider *)

Section SocketProviderFacts.
Import SocketProvider.

Lemma failures_unfold n :
  failures (S (S n)) = SocketClosed :: TimeoutFired :: failures (S n).
Proof. reflexivity. Qed.

Lemma run_cons st e evs : run st (e :: evs) = run (step st e) evs.
Proof. reflexivity. Qed.

Lemma run_app st evs evs' : run st (evs ++ evs') = run (run st evs) evs'.
Proof. apply foldl_app. Qed.

Lemma run_failures n st :
  scheduled (run st (failures (S n))) = scheduled st ++ replicate (S n) 3000 /\
  sockets_created (run st (failures (S n))) = (sockets_created st + n)%nat /\
  reconnectTimeoutRef (run st (failures (S n))) = Some 3000.
Proof.
  revert st. induction n as [|n IH]; intros st.
  - simpl. repeat split; try done.
  - rewrite failures_unfold, !run_cons.
    destruct (IH (step (step st SocketClosed) TimeoutFired)) as (Hs & Hc & Ht).
    rewrite Hs, Hc, Ht. simpl. split; [by rewrite <- app_assoc|]. split; [lia|done].
Qed.

(** C2 (as amended): after every closure the client schedules one reconnect
    with the fixed delay of 3000ms.  The delay before attempt [n + 1] equals
    the delay before attempt [n] (no growth, no cap, no jitter), and there is
    no bound on the attempts: after any number of closures in a row a timer is
    pending, and when it fires another socket is created. *)
Theorem reconnect_delay_is_fixed n :
  reconnect_delay n = Some 3000 /\
  reconnect_delay (S n) = reconnect_delay n /\
  reconnectTimeoutRef (run mounted (failures (S n))) = Some 3000 /\
  sockets_created (run mounted (failures (S n) ++ [TimeoutFired])) = S (S n).
Proof.
  assert (Hd : forall k, reconnect_delay k = Some 3000).
  { intros k. unfold reconnect_delay.
    destruct (run_failures k mounted) as (-> & _ & _). simpl.
    change (3000 :: replicate k 3000) with (replicate (S k) 3000).
    apply lookup_replicate_2. lia. }
  destruct (run_failures n mounted) as (Hs & Hc & Ht).
  repeat split.
  - apply Hd.
  - by rewrite !Hd.
  - done.
  - rewrite run_app. generalize dependent (run mounted (failures (S n))).
    intros st' _ Hc Ht. unfold run. simpl. rewrite Ht. simpl. rewrite Hc. reflexivity.
Qed.

(** C2 (as stated) fails: the first delay is 3000ms, outside 1000ms +-20%,
    and the second is not longer than the first. *)
Lemma reconnect_backoff_counterexample : ~ spec_backoff reconnect_delay 10.
Proof.
  intros (Hjit & _ & _).
  specialize (Hjit 0%nat 3000 eq_refl). unfold spec_within_jitter in Hjit.
  vm_compute in Hjit. destruct Hjit as [_ Hjit]. by apply Hjit.
Qed.

End SocketProviderFacts.

(** ** Signaling handlers of the call screen *)

Section WebRTCClientFacts.
Import WebRTCClient.

Lemma client_run_cons c e evs : run c (e :: evs) = run (handle c e) evs.
Proof. reflexivity. Qed.

Lemma applied_candidates_app es es' :
  applied_candidates (es ++ es') = applied_candidates es ++ applied_candidates es'.
Proof. apply omap_app. Qed.

Lemma sent_app es es' : sent (es ++ es') = sent es ++ sent es'.
Proof. apply omap_app. Qed.

(** One event adds to the calls of [addIceCandidate] exactly the candidate
    it carries, if it carries one. *)
Lemma handle_applied c e :
  applied_candidates (effects (handle c e))
  = applied_candidates (effects c) ++ received_candidates [e].
Proof.
  destruct e as [offer|data answer|[cand|]]; simpl.
  - unfold onopen, emit. simpl. rewrite applied_candidates_app. reflexivity.
  - unfold onmessage, received_candidates. simpl.
    destruct (is_string (get "type" data) "offer") eqn:Hoffer.
    { assert (is_string (get "type" data) "ice-candidate" = false) as ->.
      { unfold is_string in *. destruct (get "type" data) as [[| | |s| |]|]; try done.
        apply String.eqb_eq in Hoffer as ->. reflexivity. }
      simpl. rewrite !applied_candidates_app. simpl. by rewrite !app_nil_r. }
    destruct (is_string (get "type" data) "answer") eqn:Hanswer.
    { assert (is_string (get "type" data) "ice-candidate" = false) as ->.
      { unfold is_string in *. destruct (get "type" data) as [[| | |s| |]|]; try done.
        apply String.eqb_eq in Hanswer as ->. reflexivity. }
      simpl. rewrite !applied_candidates_app. simpl. by rewrite !app_nil_r. }
    destruct (is_string (get "type" data) "ice-candidate"); simpl.
    + by rewrite applied_candidates_app.
    + by rewrite app_nil_r.
  - unfold onicecandidate, emit. simpl. rewrite applied_candidates_app. reflexivity.
  - by rewrite app_nil_r.
Qed.

Lemma received_candidates_cons e evs :
  received_candidates (e :: evs) = received_candidates [e] ++ received_candidates evs.
Proof. unfold received_candidates. simpl. by destruct (match e with Open _ => _ | _ => _ end). Qed.

Lemma run_applied evs c :
  applied_candidates (effects (run c evs))
  = applied_candidates (effects c) ++ received_candidates evs.
Proof.
  revert c. induction evs as [|e evs IH]; intros c.
  - simpl. by rewrite app_nil_r.
  - rewrite client_run_cons, IH, handle_applied, (received_candidates_cons e evs).
    symmetry. apply app_assoc.
Qed.

(** C3 (as amended): the client keeps no candidate buffer.  A candidate
    received from the peer is handed to [addIceCandidate] while its own message
    is handled, whether or not a remote description has been set, and the
    handler changes nothing else; over any run, the calls of
    [addIceCandidate] are the received candidates, each once, in arrival
    order. *)
Theorem ice_candidate_applied_on_arrival c evs data answer :
  is_string (get "type" data) "ice-candidate" = true ->
  effects (handle c (Message data answer))
  = effects c ++ [AddIceCandidate (get "candidate" data)] /\
  remote_description (handle c (Message data answer)) = remote_description c /\
  applied_candidates (effects (run c evs))
  = applied_candidates (effects c) ++ received_candidates evs.
Proof.
  intros Hice. split; [|split; [|apply run_applied]].
  - simpl. unfold onmessage.
    assert (is_string (get "type" data) "offer" = false) as ->.
    { unfold is_string in *. destruct (get "type" data) as [[| | |s| |]|]; try done.
      apply String.eqb_eq in Hice as ->. reflexivity. }
    assert (is_string (get "type" data) "answer" = false) as ->.
    { unfold is_string in *. destruct (get "type" data) as [[| | |s| |]|]; try done.
      apply String.eqb_eq in Hice as ->. reflexivity. }
    by rewrite Hice.
  - simpl. unfold onmessage.
    assert (is_string (get "type" data) "offer" = false) as ->.
    { unfold is_string in *. destruct (get "type" data) as [[| | |s| |]|]; try done.
      apply String.eqb_eq in Hice as ->. reflexivity. }
    assert (is_string (get "type" data) "answer" = false) as ->.
    { unfold is_string in *. destruct (get "type" data) as [[| | |s| |]|]; try done.
      apply String.eqb_eq in Hice as ->. reflexivity. }
    by rewrite Hice.
Qed.

Lemma ice_candidate_applied_on_arrival_witness :
  effects (handle fresh (Message example_ice_message (example_sdp "answer")))
  = effects fresh ++ [AddIceCandidate (get "candidate" example_ice_message)] /\
  remote_description (handle fresh (Message example_ice_message (example_sdp "answer")))
  = remote_description fresh /\
  applied_candidates
    (effects (run fresh [Message example_ice_message (example_sdp "answer")]))
  = applied_candidates (effects fresh)
    ++ received_candidates [Message example_ice_message (example_sdp "answer")].
Proof.
  apply (ice_candidate_applied_on_arrival fresh
           [Message example_ice_message (example_sdp "answer")]
           example_ice_message (example_sdp "answer")).
  reflexivity.
Defined.

(** C3 (as stated) fails: a candidate that arrives first, with no remote
    description set, goes straight to [addIceCandidate]. *)
Lemma ice_buffer_counterexample : ~ spec_ice_buffer.
Proof.
  intros H.
  destruct (H [Message example_ice_message (example_sdp "answer")]) as [Hearly _].
  vm_compute in Hearly. discriminate.
Qed.

Lemma handle_sent c e :
  exists new, sent (effects (handle c e)) = sent (effects c) ++ new /\
              Forall client_message new.
Proof.
  destruct e as [offer|data answer|[cand|]]; simpl.
  - exists [JObj [("type", JStr "offer"); ("offer", offer)]]. split.
    + unfold onopen, emit. simpl. by rewrite sent_app.
    + repeat constructor. exists offer. by left.
  - unfold onmessage.
    destruct (is_string (get "type" data) "offer").
    { exists [JObj [("type", JStr "answer"); ("answer", answer)]]. split.
      - simpl. rewrite !sent_app. simpl. by rewrite app_nil_r.
      - repeat constructor. exists answer. right. by left. }
    destruct (is_string (get "type" data) "answer").
    { exists []. split; [|constructor]. simpl. by rewrite sent_app. }
    destruct (is_string (get "type" data) "ice-candidate").
    { exists []. split; [|constructor]. simpl. by rewrite sent_app. }
    exists []. split; [|constructor]. by rewrite app_nil_r.
  - exists [JObj [("type", JStr "ice-candidate"); ("candidate", cand)]]. split.
    + unfold emit. simpl. by rewrite sent_app.
    + repeat constructor. exists cand. right. by right.
  - exists []. split; [|constructor]. by rewrite app_nil_r.
Qed.

Lemma run_sent evs c :
  Forall client_message (sent (effects c)) ->
  Forall client_message (sent (effects (run c evs))).
Proof.
  revert c. induction evs as [|e evs IH]; intros c Hc; [done|].
  rewrite client_run_cons. apply IH.
  destruct (handle_sent c e) as (new & -> & Hnew). by apply Forall_app.
Qed.

Lemma client_message_fields msg :
  client_message msg ->
  is_Some (get "type" msg) /\ length (keys msg) = 2%nat /\
  get "sessionId" msg = None /\ get "senderId" msg = None /\ get "payload" msg = None.
Proof. intros (carried & [->| [->| ->]]); repeat split; by eexists. Qed.

(** C4 (as amended): every message the client writes to the signaling socket
    is one JSON object with exactly two properties, [type] and the offer,
    answer or candidate it carries under that name.  It has no [sessionId],
    no [senderId] and no [payload] property: the session is named by the
    socket's URL only. *)
Theorem signaling_messages_carry_type_and_content evs :
  Forall (fun msg =>
            client_message msg /\
            is_Some (get "type" msg) /\ length (keys msg) = 2%nat /\
            get "sessionId" msg = None /\ get "senderId" msg = None /\
            get "payload" msg = None)
         (sent (effects (run fresh evs))).
Proof.
  eapply Forall_impl; [apply run_sent; constructor|].
  intros msg Hmsg. split; [done|]. by apply client_message_fields.
Qed.

(** C4 (as stated) fails: the offer written when the socket opens has no
    [sessionId]. *)
Lemma signaling_envelope_counterexample : ~ spec_wire.
Proof.
  intros H. specialize (H [Open (example_sdp "offer")]).
  apply Forall_cons in H as [(_ & [v Hv] & _) _]. discriminate.
Qed.

End WebRTCClientFacts.

(** ** Video-call route *)

Section VideoCallRouteFacts.
Import VideoCallRoute.

Lemma is_recognized_unfold b :
  is_recognized b =
    is_string (type b) "start-session" || is_string (type b) "offer" ||
    is_string (type b) "answer" || is_string (type b) "ice-candidate" ||
    is_string (type b) "end-session".
Proof.
  unfold is_recognized. simpl. rewrite orb_false_r. by rewrite !orb_assoc.
Qed.

Lemma error_not_recognized b :
  is_string (type b) "error" = true -> is_recognized b = false.
Proof.
  rewrite is_recognized_unfold. unfold is_string.
  destruct (type b) as [[| | |s| |]|]; try done.
  intros ->%String.eqb_eq. reflexivity.
Qed.

Lemma POST_recognized req b reply :
  bad_auth_header (auth_header req) = false -> json_body req = Some b ->
  is_recognized b = true -> is_Some (forwarded (POST req reply)).
Proof.
  intros Hauth Hb. rewrite is_recognized_unfold. unfold POST. rewrite Hauth, Hb.
  repeat (destruct (is_string (type b) _); [by eexists|]). done.
Qed.

Lemma POST_unrecognized req b reply :
  bad_auth_header (auth_header req) = false -> json_body req = Some b ->
  is_recognized b = false -> POST req reply = {| resp := invalid_type; forwarded := None |}.
Proof.
  intros Hauth Hb. rewrite is_recognized_unfold. unfold POST. rewrite Hauth, Hb.
  repeat (destruct (is_string (type b) _); [done|]). done.
Qed.

(** C5 (as amended): the types the handler recognizes are [start-session],
    [offer], [answer], [ice-candidate] and [end-session].  An authenticated
    request of one of these types is forwarded to the session backend; one of
    any other type is answered 400 "Invalid request type" and is not
    forwarded.  The type [error] is among the rejected ones. *)
Theorem video_call_rejects_unrecognized_types req b reply :
  bad_auth_header (auth_header req) = false -> json_body req = Some b ->
  (if is_recognized b
   then is_Some (forwarded (POST req reply))
   else POST req reply = {| resp := invalid_type; forwarded := None |}) /\
  (if is_string (type b) "error"
   then POST req reply = {| resp := invalid_type; forwarded := None |}
   else True).
Proof.
  intros Hauth Hb. split.
  - destruct (is_recognized b) eqn:Hr.
    + by apply (POST_recognized req b).
    + by apply (POST_unrecognized req b).
  - destruct (is_string (type b) "error") eqn:He; [|done].
    apply (POST_unrecognized req b); try done. by apply error_not_recognized.
Qed.

Lemma video_call_rejects_unrecognized_types_witness :
  (if is_recognized (example_body "error")
   then is_Some (forwarded (POST (example_request "error") FetchFailed))
   else POST (example_request "error") FetchFailed
        = {| resp := invalid_type; forwarded := None |}) /\
  (if is_string (type (example_body "error")) "error"
   then POST (example_request "error") FetchFailed
        = {| resp := invalid_type; forwarded := None |}
   else True).
Proof.
  apply (video_call_rejects_unrecognized_types
           (example_request "error") (example_body "error") FetchFailed);
    reflexivity.
Defined.

(** C5 (as stated) fails: a request of type [error] is answered 400
    "Invalid request type". *)
Lemma video_call_error_type_counterexample : ~ spec_codec.
Proof.
  intros H.
  eapply (H (example_request "error") (example_body "error") FetchFailed "error");
    try reflexivity.
  unfold spec_types. set_solver.
Qed.

End VideoCallRouteFacts.

(** ** Client hooks and the [video_sessions] table *)

Section AuthApiFacts.
Import AuthApi.




(** What the update leaves in each row. *)
Lemma update_ended_lookup db e sessionId k :
  update_ended db e sessionId !! k
  = if bool_decide (uuid_in sessionId = Some k)
    then (fun r => if is_participant e r then mark_ended (now e) r else r) <$> db !! k
    else db !! k.
Proof.
  unfold update_ended. destruct (uuid_in sessionId) as [k'|].
  - case_bool_decide as Hk.
    + injection Hk as ->. apply lookup_alter_eq.
    + apply lookup_alter_ne. congruence.
  - by rewrite bool_decide_eq_false_2.
Qed.







(** The route's answer to C in that scenario. *)
Example relay_third_sender_example :
  VideoCallRoute.status
    (VideoCallRoute.resp
       (VideoCallRoute.POST VideoCallRoute.example_third_sender.1
          VideoCallRoute.example_third_sender.2)) = 200%nat /\
  get "success"
    (VideoCallRoute.content
       (VideoCallRoute.resp
          (VideoCallRoute.POST VideoCallRoute.example_third_sender.1
             VideoCallRoute.example_third_sender.2))) = Some (JBool true).
Proof. vm_compute. done. Qed.

(** The route lets the hook's request through to the backend and answers
    with success exactly when the backend accepts. *)
Lemma endVideoCall_outcome db e sid :
  returned (endVideoCall db e sid).1 = accepts e /\
  (endVideoCall db e sid).2 = if accepts e then update_ended db e sid else db.
Proof.
  unfold endVideoCall, makeAuthenticatedRequest, accepts.
  destruct (access_token e) as [token|]; [|done].
  unfold VideoCallRoute.POST. cbn [VideoCallRoute.auth_header].
  rewrite bad_auth_header_template.
  cbn [VideoCallRoute.json_body VideoCallRoute.type request_body is_string String.eqb
       Ascii.eqb Bool.eqb].
  unfold VideoCallRoute.relay. cbn [VideoCallRoute.resp].
  destruct (reply e) as [http data|]; [|done].
  destruct (http_ok http) eqn:Hok.
  - destruct data; done.
  - destruct (VideoCallRoute.is_null data); cbn [andb negb]; [done|].
    unfold VideoCallRoute.failure. cbn [VideoCallRoute.status].
    destruct (http =? 401)%nat; [done|]. rewrite Hok. done.
Qed.

Lemma is_participant_spec e r :
  is_participant e r = true
  <-> exists u, caller e = Some u /\ (user_id r = u \/ target_id r = Some u).
Proof.
  unfold is_participant. destruct (caller e) as [c|]; [|split; [done|by intros (? & ? & _)]].
  rewrite orb_true_iff, String.eqb_eq, bool_decide_eq_true. split.
  - intros [<-|Ht]; exists c; (split; [done|]); [by left|by right].
  - intros (u & [= ->] & [->|Ht]); [by left|by right].
Qed.

(** C6 (as amended): a stored session is ended twice in a row, the first
    time by one of its participants (the update policy of the table lets in
    only the row's [user_id] and [target_id]) with the backend accepting.  The
    first call sets [status] to "ended" and [ended_at] to its own time.  After
    the second call [status] is still "ended", but the call is not a no-op: it
    returns exactly when the backend accepts it (otherwise the hook throws and
    the row stays as the first call left it), and when it returns and its
    caller is a participant it overwrites [ended_at] with its own time; for a
    caller who is no participant the row stays as it was.  No other column
    of the row and no other row changes. *)
Theorem end_session_twice db e1 e2 sessionId k row u1 :
  uuid_in sessionId = Some k -> db !! k = Some row ->
  caller e1 = Some u1 -> (user_id row = u1 \/ target_id row = Some u1) ->
  accepts e1 = true ->
  let db1 := (endVideoCall db e1 sessionId).2 in
  let db2 := (endVideoCall db1 e2 sessionId).2 in
  exists r1 r2,
    returned (endVideoCall db e1 sessionId).1 = true /\
    db1 !! k = Some r1 /\ status r1 = "ended" /\ ended_at r1 = Some (now e1) /\
    returned (endVideoCall db1 e2 sessionId).1 = accepts e2 /\
    db2 !! k = Some r2 /\ status r2 = "ended" /\
    (forall u2, accepts e2 = true -> caller e2 = Some u2 ->
       (user_id row = u2 \/ target_id row = Some u2) -> ended_at r2 = Some (now e2)) /\
    (accepts e2 = false -> r2 = r1) /\
    (caller e2 = None -> r2 = r1) /\
    (forall u2, caller e2 = Some u2 -> user_id row <> u2 -> target_id row <> Some u2 ->
       r2 = r1) /\
    (user_id r1, target_id r1, started_at r1, duration r1, metadata r1)
    = (user_id row, target_id row, started_at row, duration row, metadata row) /\
    (user_id r2, target_id r2, started_at r2, duration r2, metadata r2)
    = (user_id row, target_id row, started_at row, duration row, metadata row) /\
    (forall k', k' <> k -> db2 !! k' = db !! k').
Proof.
  intros Hk Hr Hc Hu Hacc db1 db2. subst db1 db2.
  assert (Hp : is_participant e1 row = true) by (apply is_participant_spec; eauto).
  destruct (endVideoCall_outcome db e1 sessionId) as [Hret1 Hdb1].
  destruct (endVideoCall_outcome (endVideoCall db e1 sessionId).2 e2 sessionId)
    as [Hret2 Hdb2].
  rewrite Hacc in Hret1, Hdb1.
  assert (H1 : (endVideoCall db e1 sessionId).2 !! k = Some (mark_ended (now e1) row)).
  { rewrite Hdb1, update_ended_lookup, bool_decide_eq_true_2, Hr by done.
    cbn [fmap option_fmap option_map]. by rewrite Hp. }
  assert (H2 : (endVideoCall (endVideoCall db e1 sessionId).2 e2 sessionId).2 !! k
               = Some (mark_ended (if accepts e2 && is_participant e2 row
                                   then now e2 else now e1) row)).
  { rewrite Hdb2. destruct (accepts e2); [|done].
    rewrite update_ended_lookup, bool_decide_eq_true_2, H1 by done.
    cbn [fmap option_fmap option_map andb].
    change (is_participant e2 (mark_ended (now e1) row)) with (is_participant e2 row).
    by destruct (is_participant e2 row). }
  exists (mark_ended (now e1) row),
         (mark_ended (if accepts e2 && is_participant e2 row then now e2 else now e1) row).
  split; [done|]. split; [done|]. split; [done|]. split; [done|]. split; [done|].
  split; [done|]. split; [done|]. split; [|split; [|split; [|split]]].
  - intros u2 -> Hc2 Hu2.
    assert (is_participant e2 row = true) as -> by (apply is_participant_spec; eauto).
    reflexivity.
  - by intros ->.
  - intros Hc2. assert (is_participant e2 row = false) as ->.
    { unfold is_participant. by rewrite Hc2. }
    by rewrite andb_false_r.
  - intros u2 Hc2 Hn1 Hn2. assert (is_participant e2 row = false) as ->.
    { apply not_true_iff_false. intros (u & Hcu & Hor)%is_participant_spec.
      rewrite Hc2 in Hcu. injection Hcu as <-. by destruct Hor. }
    by rewrite andb_false_r.
  - split; [done|]. split; [done|].
    intros k' Hne. rewrite Hdb2, Hdb1.
    destruct (accepts e2);
      rewrite ?update_ended_lookup, !bool_decide_eq_false_2 by congruence; done.
Qed.

Lemma end_session_twice_witness :
  exists r1 r2,
    returned (endVideoCall example_started (example_env 1000 example_summary) example_id).1
    = true /\
    example_ended_once !! example_id = Some r1 /\
    status r1 = "ended" /\ ended_at r1 = Some 1000 /\
    returned (endVideoCall example_ended_once (example_env 2000 example_summary)
                example_id).1
    = accepts (example_env 2000 example_summary) /\
    example_ended_twice !! example_id = Some r2 /\ status r2 = "ended" /\
    (forall u2, accepts (example_env 2000 example_summary) = true ->
       caller (example_env 2000 example_summary) = Some u2 ->
       (user_id example_session = u2 \/ target_id example_session = Some u2) ->
       ended_at r2 = Some 2000) /\
    (accepts (example_env 2000 example_summary) = false -> r2 = r1) /\
    (caller (example_env 2000 example_summary) = None -> r2 = r1) /\
    (forall u2, caller (example_env 2000 example_summary) = Some u2 ->
       user_id example_session <> u2 -> target_id example_session <> Some u2 -> r2 = r1) /\
    (user_id r1, target_id r1, started_at r1, duration r1, metadata r1)
    = (user_id example_session, target_id example_session, started_at example_session,
       duration example_session, metadata example_session) /\
    (user_id r2, target_id r2, started_at r2, duration r2, metadata r2)
    = (user_id example_session, target_id example_session, started_at example_session,
       duration example_session, metadata example_session) /\
    (forall k', k' <> example_id -> example_ended_twice !! k' = example_started !! k').
Proof.
  apply (end_session_twice example_started (example_env 1000 example_summary)
           (example_env 2000 example_summary) example_id example_id example_session
           example_patient).
  - vm_compute. reflexivity.
  - vm_compute. reflexivity.
  - vm_compute. reflexivity.
  - by left.
  - reflexivity.
Defined.

(** The second call of the sample run moves [ended_at] from 1000 to 2000. *)
Example end_session_twice_example :
  ended_at <$> example_ended_once !! example_id = Some (Some 1000) /\
  ended_at <$> example_ended_twice !! example_id = Some (Some 2000).
Proof. vm_compute. done. Qed.

(** C6 (as stated) fails: with a backend that accepts both calls of a
    participant, the second call changes the row, moving [ended_at] from the
    first call's time to its own. *)
Lemma end_session_idempotent_counterexample : ~ spec_end_idempotent.
Proof.
  intros H.
  destruct (H example_started (example_env 1000 example_summary)
              (example_env 2000 example_summary) example_id) as [_ Heq];
    [reflexivity|].
  apply (f_equal (fun db => db !! example_id ≫= ended_at)) in Heq.
  vm_compute in Heq. discriminate.
Qed.

End AuthApiFacts.

(** ** Progress route *)

Section ProgressFacts.
Import Progress.

Lemma metric_is_string {V} `{!Decoded V} (mv : V) m s :
  string_of mv = Some m -> metric_is (Some mv) s = bool_decide (m = s).
Proof.
  intros Hm. unfold metric_is. cbn [mbind option_bind]. rewrite Hm.
  apply bool_decide_ext. split; [by intros [= ->]|by intros ->].
Qed.



(** A patient id that names an inherited property: the handler finds the
    constructor function of [progressData], and reading [pain] of it throws. *)
Example progress_post_inherited_example :
  status
    (POST progressData "2024-03-01"
       (Some {| patientId := Some "constructor"; metric := Some "pain";
                value := Some "2" |})).1
  = 500%nat.
Proof. reflexivity. Qed.

End ProgressFacts.

(** ** Appointments route *)

Section AppointmentsFacts.
Import Appointments.

Lemma first_missing_complete appointmentData :
  complete appointmentData -> first_missing appointmentData = None.
Proof.
  intros H. unfold first_missing, requiredFields.
  assert (Hall : forall f, f ∈ requiredFields -> js_truthy (get f appointmentData) = true)
    by (by apply Forall_forall).
  unfold requiredFields in Hall.
  repeat (rewrite filter_cons_False;
          [|rewrite Hall; [discriminate | repeat constructor]]).
  reflexivity.
Qed.

Lemma complete_not_null appointmentData :
  complete appointmentData -> appointmentData <> JNull.
Proof.
  intros H ->. apply Forall_cons in H as [H _]. discriminate.
Qed.

Lemma conflictingAppointment_conflict appointments appointmentData :
  is_Some (conflictingAppointment appointments appointmentData)
  <-> conflict appointments appointmentData.
Proof.
  unfold conflictingAppointment, conflict.
  induction appointments as [|apt rest IH]; simpl.
  - split; [by intros [? ?]|]. intros (apt & Hin & _). by apply elem_of_nil in Hin.
  - rewrite filter_cons. destruct (decide (clashes appointmentData apt = true)) as [Hc|Hc].
    + simpl. split; [|by eexists]. intros _. exists apt. split; [apply elem_of_cons; by left|done].
    + rewrite IH. split.
      * intros (a & Hin & Ha). exists a. split; [apply elem_of_cons; by right|done].
      * intros (a & Hin & Ha). apply elem_of_cons in Hin as [->|Hin]; [done|]. by exists a.
Qed.

(** C10 (as amended): for a request that carries every required field, the
    handler answers 409 exactly when the store holds an appointment with the
    same doctor, date and time that is not cancelled; then the store is left
    as it was, and otherwise the new appointment is appended and the answer is
    201.  (A request that lacks a required field is answered 400 before the
    conflict check.) *)
Theorem appointment_conflict_for_complete_requests appointments now appointmentData :
  complete appointmentData ->
  (status (POST appointments now (Some appointmentData)).1 = 409%nat
   <-> conflict appointments appointmentData) /\
  (status (POST appointments now (Some appointmentData)).1 = 409%nat /\
   (POST appointments now (Some appointmentData)).2 = appointments
   \/
   status (POST appointments now (Some appointmentData)).1 = 201%nat /\
   (POST appointments now (Some appointmentData)).2
   = appointments ++ [newAppointment appointments appointmentData now]).
Proof.
  intros Hc. pose proof (complete_not_null _ Hc) as Hnn.
  pose proof (conflictingAppointment_conflict appointments appointmentData) as Hiff.
  unfold POST. rewrite (first_missing_complete _ Hc).
  destruct appointmentData; try done;
    (destruct (conflictingAppointment appointments _) as [apt|]; simpl; split;
     [split; [intros _; apply Hiff; by eexists | done]
     |by left
     |split; [done | intros Hconf; apply Hiff in Hconf as [? ?]; done]
     |by right]).
Qed.

Lemma appointment_conflict_for_complete_requests_witness :
  (status (POST example_store "2024-03-01T10:00:00.000Z" (Some example_booking)).1 = 409%nat
   <-> conflict example_store example_booking) /\
  (status (POST example_store "2024-03-01T10:00:00.000Z" (Some example_booking)).1 = 409%nat /\
   (POST example_store "2024-03-01T10:00:00.000Z" (Some example_booking)).2 = example_store
   \/
   status (POST example_store "2024-03-01T10:00:00.000Z" (Some example_booking)).1 = 201%nat /\
   (POST example_store "2024-03-01T10:00:00.000Z" (Some example_booking)).2
   = example_store
     ++ [newAppointment example_store example_booking "2024-03-01T10:00:00.000Z"]).
Proof.
  apply (appointment_conflict_for_complete_requests example_store
           "2024-03-01T10:00:00.000Z" example_booking).
  repeat constructor.
Defined.

(** C10 (as stated) fails: a request for a taken slot that lacks its
    [patientId] is answered 400, not 409. *)
Lemma appointment_conflict_counterexample : ~ spec_conflict.
Proof.
  intros H.
  destruct (H example_store "2024-03-01T10:00:00.000Z" example_incomplete) as [_ H409].
  assert (Hconf : conflict example_store example_incomplete).
  { eexists. split; [apply elem_of_cons; left; reflexivity|reflexivity]. }
  specialize (H409 Hconf). vm_compute in H409. discriminate.
Qed.

(** A taken slot is refused and the store keeps its three appointments; a
    free one is booked under the next id. *)
Example appointment_taken_slot_example :
  status (POST example_store "2024-03-01T10:00:00.000Z" (Some example_booking)).1 = 409%nat /\
  length (POST example_store "2024-03-01T10:00:00.000Z" (Some example_booking)).2 = 3%nat.
Proof. vm_compute. done. Qed.

Example appointment_free_slot_example :
  let request :=
    JObj [("patientId", JStr "7"); ("doctorId", JStr "2");
          ("date", JStr "2024-03-04T09:00:00.000Z"); ("time", JStr "11:00 AM");
          ("type", JStr "Knee Assessment")] in
  status (POST example_store "2024-03-01T10:00:00.000Z" (Some request)).1 = 201%nat /\
  (last (POST example_store "2024-03-01T10:00:00.000Z" (Some request)).2 ≫= get "id")
  = Some (JStr "4") /\
  (last (POST example_store "2024-03-01T10:00:00.000Z" (Some request)).2 ≫= get "status")
  = Some (JStr "Pending").
Proof. vm_compute. done. Qed.

End AppointmentsFacts.

(** ** Object literals *)

Section ObjectFacts.

Lemma assoc_app k (a b : list (string * json)) :
  assoc k (a ++ b) = match assoc k a with Some v => Some v | None => assoc k b end.
Proof.
  induction a as [|[k' v'] a IH]; simpl; [done|].
  by destruct (String.eqb k k').
Qed.

Lemma assoc_set_prop k k' v fs :
  assoc k (set_prop k' v fs) = if String.eqb k k' then Some v else assoc k fs.
Proof.
  induction fs as [|[k0 v0] fs IH]; simpl; [done|].
  destruct (String.eqb_spec k' k0) as [->|Hne]; simpl.
  - by destruct (String.eqb k k0).
  - rewrite IH. destruct (String.eqb_spec k k0) as [->|Hne']; [|done].
    destruct (String.eqb_spec k0 k'); congruence.
Qed.

Lemma assoc_foldl_set_prop k props acc :
  assoc k (foldl (fun acc kv => set_prop kv.1 kv.2 acc) acc props)
  = match assoc k (reverse props) with Some v => Some v | None => assoc k acc end.
Proof.
  revert acc. induction props as [|[k' v'] props IH]; intros acc; simpl; [done|].
  rewrite IH, reverse_cons, assoc_app, assoc_set_prop. simpl.
  destruct (assoc k (reverse props)); [done|]. by destruct (String.eqb k k').
Qed.

(** Reading a property of an object literal: the last binding wins. *)
Lemma get_literal k props : get k (literal props) = assoc k (reverse props).
Proof.
  unfold literal. simpl. rewrite assoc_foldl_set_prop. by destruct (assoc k (reverse props)).
Qed.

Lemma assoc_Some_key k fs v : assoc k fs = Some v -> k ∈ (fs.*1).
Proof.
  induction fs as [|[k' v'] fs IH]; simpl; [done|].
  destruct (String.eqb_spec k k') as [->|Hne]; intros H.
  - apply elem_of_cons. by left.
  - apply elem_of_cons. right. by apply IH.
Qed.

Lemma assoc_None_key k fs : assoc k fs = None -> k ∉ (fs.*1).
Proof.
  induction fs as [|[k' v'] fs IH]; simpl; [intros _; apply not_elem_of_nil|].
  destruct (String.eqb_spec k k') as [->|Hne]; [done|]. intros H.
  apply not_elem_of_cons. split; [done|]. by apply IH.
Qed.

Lemma assoc_reverse k fs : NoDup (fs.*1) -> assoc k (reverse fs) = assoc k fs.
Proof.
  induction fs as [|[k' v'] fs IH]; [done|].
  rewrite fmap_cons, NoDup_cons. intros [Hnotin Hnd].
  rewrite reverse_cons, assoc_app, (IH Hnd). simpl.
  destruct (assoc k fs) eqn:Hk; [|done].
  apply assoc_Some_key in Hk.
  destruct (String.eqb_spec k k') as [->|Hne]; [done|done].
Qed.

Lemma set_prop_keys k v fs :
  (set_prop k v fs).*1 = (fs.*1) \/
  ((k ∉ (fs.*1)) /\ ((set_prop k v fs).*1 = (fs.*1) ++ [k])).
Proof.
  induction fs as [|[k' v'] fs IH]; csimpl.
  - right. split; [apply not_elem_of_nil|done].
  - destruct (String.eqb_spec k k') as [->|Hne]; csimpl; [by left|].
    destruct IH as [->|[Hnotin ->]]; [by left|].
    right. split; [|done]. apply not_elem_of_cons. by split.
Qed.

Lemma set_prop_NoDup k v fs : NoDup (fs.*1) -> NoDup ((set_prop k v fs).*1).
Proof.
  intros Hnd. destruct (set_prop_keys k v fs) as [->|[Hnotin ->]]; [done|].
  apply NoDup_app. split; [done|]. split; [|apply NoDup_singleton].
  intros x Hx ->%list_elem_of_singleton. done.
Qed.

(** An object literal has one entry per key. *)
Lemma literal_NoDup props : NoDup (keys (literal props)).
Proof.
  unfold literal. simpl.
  assert (H : forall acc, NoDup (acc.*1) ->
            NoDup ((foldl (fun acc kv => set_prop kv.1 kv.2 acc) acc props).*1)).
  { induction props as [|[k v] props IH]; intros acc Hacc; simpl; [done|].
    apply IH. by apply set_prop_NoDup. }
  apply H. constructor.
Qed.

End ObjectFacts.

(** ** Appointments route: the stored appointment, listing, update, removal *)

Section AppointmentsRouteFacts.
Import Appointments.

Lemma assoc_fields_of k data : NoDup (keys data) ->
  assoc k (reverse (fields_of data)) = get k data.
Proof.
  destruct data; try done. simpl. apply assoc_reverse.
Qed.

Lemma get_newAppointment k store data now :
  get k (newAppointment store data now) =
    if String.eqb k "updatedAt" then Some (JStr now)
    else if String.eqb k "createdAt" then Some (JStr now)
    else if String.eqb k "insuranceVerified"
         then Some (js_or (get "insuranceVerified" data) (JBool false))
    else if String.eqb k "reminderSent" then Some (JBool false)
    else if String.eqb k "status" then Some (js_or (get "status" data) (JStr "Pending"))
    else match assoc k (reverse (fields_of data)) with
         | Some v => Some v
         | None =>
             if String.eqb k "id" then Some (JStr (pretty (S (length store)))) else None
         end.
Proof.
  unfold newAppointment. rewrite get_literal, !reverse_app, !assoc_app.
  change (reverse [("id", JStr (pretty (S (length store))))])
    with [("id", JStr (pretty (S (length store))))].
  cbn [reverse rev_append assoc].
  repeat (destruct (String.eqb k _); [reflexivity|]).
  destruct (assoc k (reverse (fields_of data))); reflexivity.
Qed.

Lemma first_missing_None appointmentData :
  first_missing appointmentData = None -> complete appointmentData.
Proof.
  unfold first_missing, complete, requiredFields. rewrite !filter_cons, filter_nil.
  repeat case_decide; simpl; try discriminate. intros _.
  repeat constructor; by apply not_false_iff_true.
Qed.

(** A 201 is the answer of the last branch only. *)
Lemma POST_created store now body :
  status (POST store now body).1 = 201%nat ->
  exists data, body = Some data /\ complete data /\ ~ conflict store data /\
               (POST store now body).2 = store ++ [newAppointment store data now].
Proof.
  unfold POST. destruct body as [data|]; [|discriminate].
  destruct (first_missing data) eqn:Hmiss.
  { destruct data; discriminate. }
  destruct (conflictingAppointment store data) eqn:Hconf.
  { destruct data; discriminate. }
  intros _. exists data. split; [done|]. split; [by apply first_missing_None|]. split.
  - intros Hc%conflictingAppointment_conflict. rewrite Hconf in Hc. by destruct Hc.
  - pose proof (first_missing_None _ Hmiss) as Hc%complete_not_null. by destruct data.
Qed.

(** X1: what a created appointment holds.  Whatever the request says, the
    stored appointment has [reminderSent] false and [createdAt] and
    [updatedAt] equal to the time of the request; its status is the request's
    or "Pending", its [insuranceVerified] is the request's when that is
    truthy and [false] otherwise, and its id is the request's [id] or else the
    number of stored appointments plus one; every other property is the
    request's. *)
Theorem appointment_created_fields store now data :
  NoDup (keys data) ->
  status (POST store now (Some data)).1 = 201%nat ->
  exists apt,
    (POST store now (Some data)).2 = store ++ [apt] /\
    get "reminderSent" apt = Some (JBool false) /\
    get "createdAt" apt = Some (JStr now) /\
    get "updatedAt" apt = Some (JStr now) /\
    get "status" apt = Some (js_or (get "status" data) (JStr "Pending")) /\
    get "insuranceVerified" apt
    = (if js_truthy (get "insuranceVerified" data)
       then get "insuranceVerified" data else Some (JBool false)) /\
    get "id" apt = Some (default (JStr (pretty (S (length store)))) (get "id" data)) /\
    forall k,
      k ∉ ["id"; "status"; "reminderSent"; "insuranceVerified"; "createdAt"; "updatedAt"] ->
      get k apt = get k data.
Proof.
  intros Hnd H201.
  destruct (POST_created _ _ _ H201) as (d & [= <-] & _ & _ & ->).
  eexists. split; [reflexivity|].
  repeat split; try (rewrite get_newAppointment; reflexivity).
  - rewrite get_newAppointment. cbn [String.eqb Ascii.eqb Bool.eqb]. unfold js_or.
    destruct (js_truthy (get "insuranceVerified" data)) eqn:Hv; [|done].
    by destruct (get "insuranceVerified" data).
  - rewrite get_newAppointment. cbn [String.eqb Ascii.eqb Bool.eqb].
    rewrite (assoc_fields_of _ _ Hnd). by destruct (get "id" data).
  - intros k Hk. rewrite get_newAppointment, (assoc_fields_of _ _ Hnd).
    assert (Hkey : forall k', k' ∈ ["id"; "status"; "reminderSent"; "insuranceVerified";
                                     "createdAt"; "updatedAt"] ->
                              String.eqb k k' = false).
    { intros k' Hk'. destruct (String.eqb_spec k k') as [->|?]; [done|done]. }
    rewrite !Hkey by set_solver. by destruct (get k data).
Qed.

Lemma appointment_created_fields_witness :
  exists apt,
    (POST example_store "2024-03-01T10:00:00.000Z" (Some example_free_booking)).2
    = example_store ++ [apt] /\
    get "reminderSent" apt = Some (JBool false) /\
    get "createdAt" apt = Some (JStr "2024-03-01T10:00:00.000Z") /\
    get "updatedAt" apt = Some (JStr "2024-03-01T10:00:00.000Z") /\
    get "status" apt = Some (js_or (get "status" example_free_booking) (JStr "Pending")) /\
    get "insuranceVerified" apt
    = (if js_truthy (get "insuranceVerified" example_free_booking)
       then get "insuranceVerified" example_free_booking else Some (JBool false)) /\
    get "id" apt
    = Some (default (JStr (pretty (S (length example_store))))
              (get "id" example_free_booking)) /\
    forall k,
      k ∉ ["id"; "status"; "reminderSent"; "insuranceVerified"; "createdAt"; "updatedAt"] ->
      get k apt = get k example_free_booking.
Proof.
  apply (appointment_created_fields example_store "2024-03-01T10:00:00.000Z"
           example_free_booking).
  - apply (bool_decide_unpack _). vm_compute. exact I.
  - vm_compute. reflexivity.
Defined.

Lemma strict_eq_string v p : strict_eq v (Some (JStr p)) = true -> v = Some (JStr p).
Proof.
  destruct v as [[| | |q| |]|]; simpl; try discriminate.
  by intros ->%String.eqb_eq.
Qed.

Lemma POST_conflict store now data :
  complete data -> conflict store data ->
  POST store now (Some data)
  = (failure 409 "Doctor is not available at this time", store).
Proof.
  intros Hc Hconf. unfold POST. rewrite (first_missing_complete _ Hc).
  apply conflictingAppointment_conflict in Hconf as [apt ->].
  pose proof (complete_not_null _ Hc). by destruct data.
Qed.

(** X2: a slot that was just booked is taken.  After a request with a
    doctor, date and time that are strings, numbers or booleans was answered
    201 and its status is not "Cancelled", every complete request for the same
    doctor, date and time is answered 409 and leaves the store as it is. *)
Theorem appointment_slot_taken_after_booking store now now' data data' :
  NoDup (keys data) ->
  status (POST store now (Some data)).1 = 201%nat ->
  primitive (get "doctorId" data) -> primitive (get "date" data) ->
  primitive (get "time" data) ->
  strict_eq (get "status" data) (Some (JStr "Cancelled")) = false ->
  complete data' ->
  get "doctorId" data' = get "doctorId" data ->
  get "date" data' = get "date" data ->
  get "time" data' = get "time" data ->
  POST (POST store now (Some data)).2 now' (Some data')
  = (failure 409 "Doctor is not available at this time", (POST store now (Some data)).2).
Proof.
  intros Hnd H201 Hdoc Hdate Htime Hstatus Hc' Edoc Edate Etime.
  destruct (POST_created _ _ _ H201) as (d & [= <-] & _ & _ & ->).
  apply POST_conflict; [done|].
  exists (newAppointment store data now). split.
  { apply elem_of_app. right. by apply list_elem_of_singleton. }
  unfold clashes. rewrite !get_newAppointment, !(assoc_fields_of _ _ Hnd).
  cbn [String.eqb Ascii.eqb Bool.eqb]. rewrite Edoc, Edate, Etime.
  assert (Hsame : forall v : option json,
            strict_eq v v = true ->
            strict_eq match v with Some x => Some x | None => None end v = true)
    by (by intros [?|]).
  rewrite (Hsame _ Hdoc), (Hsame _ Hdate), (Hsame _ Htime). simpl.
  unfold js_or. destruct (js_truthy (get "status" data)) eqn:Ht.
  - destruct (get "status" data); [|done]. simpl in *. by rewrite Hstatus.
  - reflexivity.
Qed.

Lemma appointment_slot_taken_after_booking_witness :
  POST (POST example_store "2024-03-01T10:00:00.000Z" (Some example_free_booking)).2
    "2024-03-01T10:05:00.000Z" (Some example_free_booking)
  = (failure 409 "Doctor is not available at this time",
     (POST example_store "2024-03-01T10:00:00.000Z" (Some example_free_booking)).2).
Proof.
  apply (appointment_slot_taken_after_booking example_store
           "2024-03-01T10:00:00.000Z" "2024-03-01T10:05:00.000Z"
           example_free_booking example_free_booking);
    try reflexivity.
  - apply (bool_decide_unpack _). vm_compute. exact I.
  - repeat constructor.
Defined.

(** X3: a created appointment is listed for its patient.  After a request
    whose [patientId] is the string [p] was answered 201, the GET handler
    called with [patientId = p] and no status filter answers with a list whose
    last element is the new appointment and whose elements all have
    [patientId] equal to [p]. *)
Theorem appointment_listed_after_booking toLowerCase store now data p :
  NoDup (keys data) ->
  status (POST store now (Some data)).1 = 201%nat ->
  get "patientId" data = Some (JStr p) ->
  exists found apt,
    (POST store now (Some data)).2 = store ++ [apt] /\
    GET toLowerCase (POST store now (Some data)).2 (Some p) None = listing found /\
    last found = Some apt /\
    Forall (fun a => get "patientId" a = Some (JStr p)) found.
Proof.
  intros Hnd H201 Hp.
  destruct (POST_created _ _ _ H201) as (d & [= <-] & Hc & _ & ->).
  assert (Htruthy : truthy (Some p) = true).
  { apply Forall_cons in Hc as [Hc _]. by rewrite Hp in Hc. }
  assert (Hnew : get "patientId" (newAppointment store data now) = Some (JStr p)).
  { rewrite get_newAppointment, (assoc_fields_of _ _ Hnd), Hp. reflexivity. }
  eexists _, _. split; [reflexivity|]. unfold GET. rewrite Htruthy.
  cbn [truthy]. split; [reflexivity|]. split.
  - rewrite filter_app, filter_cons_True, filter_nil.
    + apply last_snoc.
    + rewrite Hnew. simpl. apply String.eqb_refl.
  - apply Forall_forall. intros a [Ha _]%list_elem_of_filter.
    by apply strict_eq_string.
Qed.

Lemma appointment_listed_after_booking_witness :
  exists found apt,
    (POST example_store "2024-03-01T10:00:00.000Z" (Some example_free_booking)).2
    = example_store ++ [apt] /\
    GET id (POST example_store "2024-03-01T10:00:00.000Z" (Some example_free_booking)).2
      (Some "7") None = listing found /\
    last found = Some apt /\
    Forall (fun a => get "patientId" a = Some (JStr "7")) found.
Proof.
  apply (appointment_listed_after_booking id example_store "2024-03-01T10:00:00.000Z"
           example_free_booking "7").
  - apply (bool_decide_unpack _). vm_compute. exact I.
  - vm_compute. reflexivity.
  - reflexivity.
Defined.

Lemma assoc_without_id k fs :
  assoc k (without_id fs) = if String.eqb k "id" then None else assoc k fs.
Proof.
  unfold without_id. induction fs as [|[k' v'] fs IH]; [by destruct (String.eqb k "id")|].
  rewrite filter_cons. simpl. case_decide as Hid; simpl.
  - rewrite IH. destruct (String.eqb_spec k "id") as [->|?]; [|done].
    by destruct (String.eqb_spec "id" k').
  - simpl in Hid. subst k'. rewrite IH.
    by destruct (String.eqb_spec k "id").
Qed.

Lemma without_id_NoDup fs : NoDup (fs.*1) -> NoDup ((without_id fs).*1).
Proof.
  unfold without_id. induction fs as [|[k v] fs IH]; [done|].
  rewrite fmap_cons, NoDup_cons. intros [Hnotin Hnd].
  rewrite filter_cons. case_decide; [|by apply IH].
  rewrite fmap_cons. apply NoDup_cons. split; [|by apply IH].
  intros Hin. apply Hnotin. apply list_elem_of_fmap in Hin as ([k' v'] & -> & Hin).
  apply list_elem_of_fmap. exists (k', v'). split; [done|].
  by apply list_elem_of_filter in Hin as [_ Hin].
Qed.

Lemma get_updated k old updateData now :
  get k (updated old updateData now) =
    if String.eqb k "updatedAt" then Some (JStr now)
    else match assoc k (reverse updateData) with
         | Some v => Some v
         | None => assoc k (reverse (fields_of old))
         end.
Proof.
  unfold updated. rewrite get_literal, !reverse_app, !assoc_app.
  cbn [reverse rev_append assoc]. by destruct (String.eqb k "updatedAt").
Qed.

(** A 200 is the answer of the last branch only. *)
Lemma PUT_updated store now body :
  status (PUT store now body).1 = 200%nat ->
  exists b i old,
    body = Some b /\ js_truthy (get "id" b) = true /\
    findIndex (get "id" b) store = Some (i, old) /\
    (PUT store now body).2 = <[i := updated old (without_id (fields_of b)) now]> store.
Proof.
  unfold PUT. destruct body as [b|]; [|discriminate].
  destruct (js_truthy (get "id" b)) eqn:Hid; [|destruct b; discriminate].
  destruct (findIndex (get "id" b) store) as [[i old]|] eqn:Hfind;
    [|destruct b; discriminate].
  destruct (_ && _); [destruct b; discriminate|].
  intros _. exists b, i, old. by destruct b.
Qed.

(** X4: an update is merged into the appointment it names.  When PUT answers
    200 the store keeps its length, the appointment found by [id] is replaced
    in place, it keeps its [id], its [updatedAt] is the time of the request,
    and every other property has the value of the request if the request has
    one and its previous value otherwise. *)
Theorem appointment_update_merges store now b :
  well_formed store -> NoDup (keys b) ->
  status (PUT store now (Some b)).1 = 200%nat ->
  exists i old apt,
    findIndex (get "id" b) store = Some (i, old) /\
    (PUT store now (Some b)).2 = <[i := apt]> store /\
    length (PUT store now (Some b)).2 = length store /\
    get "id" apt = get "id" old /\
    get "updatedAt" apt = Some (JStr now) /\
    (forall k, k <> "id" -> k <> "updatedAt" ->
       get k apt = match get k b with Some v => Some v | None => get k old end) /\
    well_formed (PUT store now (Some b)).2.
Proof.
  intros Hwf Hnd H200.
  destruct (PUT_updated _ _ _ H200) as (b' & i & old & [= <-] & Hid & Hfind & ->).
  pose proof Hfind as (Hold & _ & _)%list_find_Some.
  assert (Hndold : NoDup (keys old)).
  { eapply Forall_forall in Hwf; [exact Hwf|]. by eapply list_elem_of_lookup_2. }
  assert (Hndb : NoDup ((fields_of b).*1)) by (destruct b; first [done | constructor]).
  assert (Hupd : forall k, assoc k (reverse (without_id (fields_of b)))
                           = if String.eqb k "id" then None else get k b).
  { intros k. rewrite assoc_reverse by (by apply without_id_NoDup).
    rewrite assoc_without_id. by destruct b. }
  exists i, old, (updated old (without_id (fields_of b)) now).
  split; [done|]. split; [done|]. split; [apply length_insert|].
  split; [|split; [|split]].
  - rewrite get_updated, Hupd. simpl. by apply assoc_fields_of.
  - by rewrite get_updated.
  - intros k Hk1 Hk2. rewrite get_updated, Hupd, assoc_fields_of by done.
    destruct (String.eqb_spec k "updatedAt"); [done|].
    by destruct (String.eqb_spec k "id").
  - apply Forall_insert; [done|]. apply literal_NoDup.
Qed.

Lemma appointment_update_merges_witness :
  exists i old apt,
    findIndex (get "id" (update_request "2" [("time", JStr "3:00 PM")])) example_store
    = Some (i, old) /\
    (PUT example_store "2024-03-02T08:00:00.000Z"
       (Some (update_request "2" [("time", JStr "3:00 PM")]))).2
    = <[i := apt]> example_store /\
    length (PUT example_store "2024-03-02T08:00:00.000Z"
              (Some (update_request "2" [("time", JStr "3:00 PM")]))).2
    = length example_store /\
    get "id" apt = get "id" old /\
    get "updatedAt" apt = Some (JStr "2024-03-02T08:00:00.000Z") /\
    (forall k, k <> "id" -> k <> "updatedAt" ->
       get k apt = match get k (update_request "2" [("time", JStr "3:00 PM")]) with
                   | Some v => Some v
                   | None => get k old
                   end) /\
    well_formed (PUT example_store "2024-03-02T08:00:00.000Z"
                   (Some (update_request "2" [("time", JStr "3:00 PM")]))).2.
Proof.
  apply (appointment_update_merges example_store "2024-03-02T08:00:00.000Z"
           (update_request "2" [("time", JStr "3:00 PM")])).
  - apply (bool_decide_unpack _). vm_compute. exact I.
  - apply (bool_decide_unpack _). vm_compute. exact I.
  - vm_compute. reflexivity.
Defined.

(** X5: cancelling frees the slot.  The request of [cancelAppointment(id)]
    for a stored appointment is answered 200 without a conflict check and sets
    the status to "Cancelled"; afterwards a request is answered 409 only if an
    appointment other than the cancelled one clashes with it. *)
Theorem appointment_cancel_frees_slot store now id i old now' data :
  id <> "" -> findIndex (Some (JStr id)) store = Some (i, old) ->
  status (PUT store now (Some (cancel_request id))).1 = 200%nat /\
  (PUT store now (Some (cancel_request id))).2 !! i
  = Some (updated old [("status", JStr "Cancelled")] now) /\
  get "status" (updated old [("status", JStr "Cancelled")] now) = Some (JStr "Cancelled") /\
  (status (POST (PUT store now (Some (cancel_request id))).2 now' (Some data)).1 = 409%nat ->
   exists j other, j <> i /\ store !! j = Some other /\ clashes data other = true).
Proof.
  intros Hid Hfind.
  pose proof Hfind as (Hold & _ & _)%list_find_Some.
  assert (Hput : PUT store now (Some (cancel_request id))
                 = ({| status := 200;
                       content := JObj [("success", JBool true);
                                        ("data", updated old [("status", JStr "Cancelled")] now);
                                        ("message", JStr "Appointment updated successfully")] |},
                    <[i := updated old [("status", JStr "Cancelled")] now]> store)).
  { change (cancel_request id) with (JObj [("id", JStr id); ("status", JStr "Cancelled")]).
    unfold PUT. cbn [get assoc String.eqb Ascii.eqb Bool.eqb js_truthy fields_of].
    destruct (String.eqb_spec id ""); [done|]. cbn [negb]. rewrite Hfind.
    change (without_id [("id", JStr id); ("status", JStr "Cancelled")])
      with [("status", JStr "Cancelled")].
    reflexivity. }
  rewrite Hput. cbn [fst snd status].
  assert (Hst : get "status" (updated old [("status", JStr "Cancelled")] now)
                = Some (JStr "Cancelled")) by (by rewrite get_updated).
  split; [done|]. split.
  { apply list_lookup_insert_eq. by eapply lookup_lt_Some. }
  split; [done|]. intros H409.
  assert (Hconf : conflict (<[i := updated old [("status", JStr "Cancelled")] now]> store) data).
  { apply conflictingAppointment_conflict. revert H409. unfold POST.
    destruct data; try discriminate;
      (destruct (first_missing _); [discriminate|]);
      (destruct (conflictingAppointment _ _); [by eexists|discriminate]). }
  destruct Hconf as (other & Hin & Hclash).
  apply list_elem_of_lookup in Hin as [j Hj].
  destruct (decide (j = i)) as [->|Hne].
  - rewrite list_lookup_insert_eq in Hj by (by eapply lookup_lt_Some).
    injection Hj as <-. unfold clashes in Hclash. rewrite Hst in Hclash.
    simpl in Hclash. by rewrite andb_false_r in Hclash.
  - rewrite list_lookup_insert_ne in Hj by done. by exists j, other.
Qed.

Lemma appointment_cancel_frees_slot_witness :
  status (PUT example_store "2024-03-02T08:00:00.000Z" (Some (cancel_request "1"))).1
  = 200%nat /\
  (PUT example_store "2024-03-02T08:00:00.000Z" (Some (cancel_request "1"))).2 !! 0%nat
  = Some (updated (default JNull (head example_store)) [("status", JStr "Cancelled")]
            "2024-03-02T08:00:00.000Z") /\
  get "status" (updated (default JNull (head example_store)) [("status", JStr "Cancelled")]
                  "2024-03-02T08:00:00.000Z") = Some (JStr "Cancelled") /\
  (status (POST (PUT example_store "2024-03-02T08:00:00.000Z"
                   (Some (cancel_request "1"))).2
             "2024-03-02T09:00:00.000Z" (Some example_booking)).1 = 409%nat ->
   exists j other, j <> 0%nat /\ example_store !! j = Some other /\
                   clashes example_booking other = true).
Proof.
  apply (appointment_cancel_frees_slot example_store "2024-03-02T08:00:00.000Z" "1"
           0%nat (default JNull (head example_store)) "2024-03-02T09:00:00.000Z"
           example_booking).
  - discriminate.
  - vm_compute. reflexivity.
Defined.

(** The slot of the mock data that was taken is free once its appointment is
    cancelled. *)
Example appointment_rebook_example :
  status (POST example_store "2024-03-02T09:00:00.000Z" (Some example_booking)).1 = 409%nat /\
  status (POST (PUT example_store "2024-03-02T08:00:00.000Z" (Some (cancel_request "1"))).2
            "2024-03-02T09:00:00.000Z" (Some example_booking)).1 = 201%nat.
Proof. vm_compute. done. Qed.

Lemma elem_of_delete_lookup (l : list json) i x :
  x ∈ delete i l -> exists j, j <> i /\ l !! j = Some x.
Proof.
  intros [k Hk]%list_elem_of_lookup.
  destruct (decide (k < i)%nat).
  - rewrite list_lookup_delete_lt in Hk by done. exists k. split; [lia|done].
  - rewrite list_lookup_delete_ge in Hk by lia. exists (S k). split; [lia|done].
Qed.

(** A 200 is the answer of the last branch only. *)
Lemma DELETE_removed store id :
  status (DELETE store (Some id)).1 = 200%nat ->
  exists i apt,
    truthy (Some id) = true /\
    findIndex (JStr <$> Some id) store = Some (i, apt) /\
    (DELETE store (Some id)).2 = delete i store.
Proof.
  unfold DELETE. destruct (truthy (Some id)); [|discriminate]. cbn [negb].
  destruct (findIndex _ store) as [[i apt]|]; [|discriminate].
  intros _. by exists i, apt.
Qed.

(** X6: removal.  In a store whose appointments have distinct ids, a DELETE
    that is answered 200 removes one appointment and keeps the others in
    their order; no appointment with that id is left, and a second DELETE of
    the same id is answered 404 and changes nothing. *)
Theorem appointment_delete_twice store id :
  NoDup (get "id" <$> store) ->
  status (DELETE store (Some id)).1 = 200%nat ->
  S (length (DELETE store (Some id)).2) = length store /\
  (DELETE store (Some id)).2 `sublist_of` store /\
  Forall (fun apt => get "id" apt <> Some (JStr id)) (DELETE store (Some id)).2 /\
  DELETE (DELETE store (Some id)).2 (Some id)
  = (failure 404 "Appointment not found", (DELETE store (Some id)).2).
Proof.
  intros Hnd H200.
  destruct (DELETE_removed _ _ H200) as (i & apt & Hid & Hfind & Hdel).
  rewrite Hdel.
  pose proof Hfind as (Hi & Hapt%strict_eq_string & _)%list_find_Some.
  assert (Hgone : Forall (fun apt => get "id" apt <> Some (JStr id)) (delete i store)).
  { apply Forall_forall. intros x (j & Hne & Hj)%elem_of_delete_lookup Hx.
    apply Hne. apply (NoDup_lookup _ j i (Some (JStr id)) Hnd);
      rewrite list_lookup_fmap; [rewrite Hj|rewrite Hi]; simpl; congruence. }
  split; [|split; [apply sublist_delete|split; [done|]]].
  - rewrite length_delete by (by eexists).
    apply lookup_lt_Some in Hi. lia.
  - unfold DELETE. rewrite Hid. cbn [negb].
    assert (Hnone : findIndex (JStr <$> Some id) (delete i store) = None).
    { apply list_find_None. eapply Forall_impl; [exact Hgone|].
      intros x Hx Heq%strict_eq_string. done. }
    by rewrite Hnone.
Qed.

Lemma appointment_delete_twice_witness :
  S (length (DELETE example_store (Some "2")).2) = length example_store /\
  (DELETE example_store (Some "2")).2 `sublist_of` example_store /\
  Forall (fun apt => get "id" apt <> Some (JStr "2")) (DELETE example_store (Some "2")).2 /\
  DELETE (DELETE example_store (Some "2")).2 (Some "2")
  = (failure 404 "Appointment not found", (DELETE example_store (Some "2")).2).
Proof.
  apply (appointment_delete_twice example_store "2").
  - vm_compute.
    repeat (apply NoDup_cons_2;
            [intros Hin;
             repeat (apply elem_of_cons in Hin as [Hin|Hin]; [discriminate|]);
             by apply elem_of_nil in Hin|]).
    apply NoDup_nil_2.
  - vm_compute. reflexivity.
Defined.

End AppointmentsRouteFacts.

(** ** Progress route: other patients, reading back *)

Section ProgressRouteFacts.
Import Progress.





(** The answer to a request that reaches the branches of lines 192-216. *)
Lemma POST_updates {V} `{!Decoded V} (db : gmap string (patient V)) today pid m v :
  is_falsy pid = false -> missing_or_falsy m = false ->
  (db !! key_of pid = None -> key_of pid ∉ Object_prototype) ->
  POST db today (Some {| patientId := Some pid; metric := m; value := Some v |})
  = (created (PatientRecord (update today m v (default new_patient (db !! key_of pid)))),
     <[key_of pid := update today m v (default new_patient (db !! key_of pid))]> db).
Proof.
  intros Hpid Hm Hown. unfold POST. cbn [patientId metric value]. rewrite Hpid, Hm.
  cbn [orb]. destruct (db !! key_of pid) as [p0|]; [reflexivity|].
  rewrite bool_decide_eq_false_2 by auto. reflexivity.
Qed.

Lemma GET_stored {V} `{!Runtime V} (db : gmap string (patient V)) key p metric :
  key <> "" ->
  GET (<[key := p]> db) (Some key) metric
  = if truthy metric then
      match property (default "" metric) p with
      | Some metricData =>
          if is_truthy metricData then found (OneMetric metricData)
          else refused "Metric not found" 404
      | None => refused "Metric not found" 404
      end
    else found (WholeRecord p).
Proof.
  intros Hkey. unfold GET. cbn [truthy default].
  destruct (String.eqb_spec key ""); [done|]. cbn [negb]. by rewrite lookup_insert_eq.
Qed.



(** X10: a first activity creates the record, and its overall score of 0
    cannot be read back.  A weekly activity [v] is posted for a patient whose
    id is truthy and whose key is not empty, has no record and does not name a
    property that [progressData] only inherits.  The POST answers 201 and
    stores a record with that one activity, no levels, no achievements and
    overall 0.  GET then answers 200 with the record, and 200 with the
    activity list for the metric [weeklyActivity], but 404 "Metric not found"
    for the metric [overall], because 0 is falsy. *)
Theorem progress_new_patient_overall_not_found {V} `{!Decoded V} `{!Runtime V}
    (db : gmap string (patient V)) today pid mv v :
  string_of mv = Some "weeklyActivity" ->
  is_falsy pid = false -> is_falsy mv = false -> key_of pid <> "" ->
  db !! key_of pid = None ->
  key_of pid ∉
    ["constructor"; "__defineGetter__"; "__defineSetter__"; "hasOwnProperty";
     "__lookupGetter__"; "__lookupSetter__"; "isPrototypeOf"; "propertyIsEnumerable";
     "toString"; "valueOf"; "__proto__"; "toLocaleString"] ->
  let request := Some {| patientId := Some pid; metric := Some mv; value := Some v |} in
  let zero := {| current := Written (JNum 0); initial := Written (JNum 0); history := [] |} in
  let p := {| overall := Literal 0; pain := zero; mobility := zero; strength := zero;
              weeklyActivity := [Received v]; achievements := [] |} in
  POST db today request
  = ({| status := 201; success := true; data := Some (PatientRecord p); error := None |},
     <[key_of pid := p]> db) /\
  GET (POST db today request).2 (Some (key_of pid)) None
  = {| get_status := 200; get_success := true; get_data := Some (WholeRecord p);
       get_error := None |} /\
  GET (POST db today request).2 (Some (key_of pid)) (Some "weeklyActivity")
  = {| get_status := 200; get_success := true;
       get_data := Some (OneMetric (Activities [Received v])); get_error := None |} /\
  GET (POST db today request).2 (Some (key_of pid)) (Some "overall")
  = {| get_status := 404; get_success := false; get_data := None;
       get_error := Some "Metric not found" |}.
Proof.
  intros Hm Hpid Hmv Hkey Hnone Hown request zero p. subst request zero p.
  rewrite (POST_updates db today pid (Some mv) v) by done. cbn [fst snd].
  rewrite !GET_stored by done. rewrite Hnone. cbn [default truthy].
  unfold update. rewrite !(metric_is_string mv "weeklyActivity") by done.
  cbn. done.
Qed.

Lemma progress_new_patient_overall_not_found_witness :
  POST progressData "2024-03-01" (Some example_activity)
  = ({| status := 201; success := true;
        data := Some (PatientRecord
                        {| overall := Literal 0;
                           pain := {| current := Written (JNum 0);
                                      initial := Written (JNum 0); history := [] |};
                           mobility := {| current := Written (JNum 0);
                                          initial := Written (JNum 0); history := [] |};
                           strength := {| current := Written (JNum 0);
                                          initial := Written (JNum 0); history := [] |};
                           weeklyActivity := [Received "Walk"]; achievements := [] |});
        error := None |},
     <["17" := {| overall := Literal 0;
                  pain := {| current := Written (JNum 0);
                             initial := Written (JNum 0); history := [] |};
                  mobility := {| current := Written (JNum 0);
                                 initial := Written (JNum 0); history := [] |};
                  strength := {| current := Written (JNum 0);
                                 initial := Written (JNum 0); history := [] |};
                  weeklyActivity := [Received "Walk"]; achievements := [] |}]> progressData) /\
  GET (POST progressData "2024-03-01" (Some example_activity)).2 (Some "17") None
  = {| get_status := 200; get_success := true;
       get_data := Some (WholeRecord
                           {| overall := Literal 0;
                              pain := {| current := Written (JNum 0);
                                         initial := Written (JNum 0); history := [] |};
                              mobility := {| current := Written (JNum 0);
                                             initial := Written (JNum 0); history := [] |};
                              strength := {| current := Written (JNum 0);
                                             initial := Written (JNum 0); history := [] |};
                              weeklyActivity := [Received "Walk"]; achievements := [] |});
       get_error := None |} /\
  GET (POST progressData "2024-03-01" (Some example_activity)).2 (Some "17")
    (Some "weeklyActivity")
  = {| get_status := 200; get_success := true;
       get_data := Some (OneMetric (Activities [Received "Walk"])); get_error := None |} /\
  GET (POST progressData "2024-03-01" (Some example_activity)).2 (Some "17") (Some "overall")
  = {| get_status := 404; get_success := false; get_data := None;
       get_error := Some "Metric not found" |}.
Proof.
  refine (progress_new_patient_overall_not_found progressData "2024-03-01" "17"
            "weeklyActivity" "Walk" _ _ _ _ _ _);
    try reflexivity; try discriminate.
  vm_compute. intros H. by repeat (apply elem_of_cons in H as [H|H]; [discriminate|]);
    apply elem_of_nil in H.
Defined.

End ProgressRouteFacts.

(** ** Pose-analysis route: when it throttles, what it writes *)

Section PoseEstimationRouteFacts.
Import PoseEstimation.






(** What one request can do to the table. *)
Lemma POST_table db s :
  db_after (POST db s) = db \/
  exists uid b http data r,
    auth_session s = Some uid /\ json_body s = inl b /\
    reply s = Replied http data /\ http_ok http = true /\
    db_after (POST db s) = db ++ [r] /\
    user_id r = uid /\ session_id r = sessionId b /\ created_at r = store_time s /\
    row_analysis r = b_analysis data.
Proof.
  unfold POST. destruct (auth_session s) as [uid|]; [|by left].
  destruct (bad_auth_header _); [by left|].
  destruct (json_body s) as [b|]; [|by left].
  destruct (throttled _ _ _ _); [by left|].
  destruct (reply s) as [http data|]; [|by left].
  destruct (http_ok http) eqn:Hok; [|by left].
  destruct (storage_error s); [by left|].
  right. by eexists uid, b, http, data, _.
Qed.

(** X13: the handler only adds analyses of its caller.  A request leaves the
    table as it is or appends one row, and a row is appended only for the
    authenticated user, after a 2xx answer of the backend, with the request's
    session and the backend's analysis.  Over any sequence of requests the
    table keeps the rows it had, in their order, and every new row belongs to
    a user who was authenticated in one of the requests. *)
Theorem pose_post_writes_own_rows db subs :
  db `prefix_of` serve_all db subs /\
  (forall r, r ∈ serve_all db subs ->
     r ∈ db \/ exists s, s ∈ subs /\ auth_session s = Some (user_id r) /\
                         (exists http data, reply s = Replied http data /\
                                            http_ok http = true /\
                                            row_analysis r = b_analysis data)).
Proof.
  revert db. induction subs as [|s subs IH]; intros db; simpl.
  - split; [done|]. intros r Hr. by left.
  - destruct (IH (db_after (POST db s))) as [Hpre Hrows].
    destruct (POST_table db s) as [Heq|(uid & b & http & data & r0 & Hu & Hb & Hr & Hok &
                                        Heq & Huid & _ & _ & Han)].
    + rewrite Heq in *. split; [done|]. intros r Hin.
      destruct (Hrows r Hin) as [?|(s' & Hs' & Hrest)]; [by left|].
      right. exists s'. split; [|done]. apply elem_of_cons. by right.
    + rewrite Heq in *. split.
      { etrans; [|exact Hpre]. by apply prefix_app_r. }
      intros r Hin. destruct (Hrows r Hin) as [Hold|(s' & Hs' & Hrest)].
      * apply elem_of_app in Hold as [?|Hnew]; [by left|].
        apply list_elem_of_singleton in Hnew as ->.
        right. exists s. split; [apply elem_of_cons; by left|].
        split; [congruence|]. by exists http, data.
      * right. exists s'. split; [|done]. apply elem_of_cons. by right.
Qed.

End PoseEstimationRouteFacts.

(** ** [analyzePoseData] *)

Section PoseClientFacts.
Import PoseEstimation PoseClient.



End PoseClientFacts.

(** ** Video-call route: success and failure answers *)

Section VideoCallRouteAnswers.
Import VideoCallRoute.

Lemma bad_auth_header_false h :
  bad_auth_header h = false -> exists a, h = Some a /\ is_bearer a = true.
Proof.
  destruct h as [a|]; [|discriminate]. unfold bad_auth_header.
  intros [_ Hb%negb_false_iff]%orb_false_iff. by exists a.
Qed.

Lemma relay_success auth p payload reads ok fallback reply :
  (forall data, get "success" (ok data) = Some (JBool true)) ->
  get "success" (content (resp (relay auth p payload reads ok fallback reply)))
  = Some (JBool true) ->
  exists http data,
    reply = Replied http data /\ http_ok http = true /\
    status (resp (relay auth p payload reads ok fallback reply)) = 200%nat.
Proof.
  intros Hok. unfold relay. cbn [resp].
  destruct reply as [http data|]; [|discriminate].
  destruct (http_ok http) eqn:Hhttp.
  - destruct (reads && is_null data); [discriminate|]. intros _. by exists http, data.
  - destruct (is_null data); discriminate.
Qed.

(** X15: success means the backend accepted.  The route answers with
    [success: true] only for a request that carried a Bearer authorization
    header and was forwarded to the session backend, with that same header,
    and only when the backend answered 2xx; the route's status is then 200. *)
Theorem video_call_success_needs_backend req reply :
  get "success" (content (resp (POST req reply))) = Some (JBool true) ->
  exists http data call,
    reply = Replied http data /\ http_ok http = true /\
    forwarded (POST req reply) = Some call /\
    auth_header req = Some (authorization call) /\
    is_bearer (authorization call) = true /\
    status (resp (POST req reply)) = 200%nat.
Proof.
  unfold POST. destruct (bad_auth_header (auth_header req)) eqn:Hauth; [discriminate|].
  apply bad_auth_header_false in Hauth as (a & Ha & Hbearer). rewrite Ha.
  cbn [default from_option id].
  destruct (json_body req) as [b|]; [|discriminate].
  repeat (destruct (is_string (type b) _);
          [intros (http & data & -> & Hok & Hst)%relay_success; [|done];
           by eexists http, data, _|]).
  discriminate.
Qed.

Lemma video_call_success_needs_backend_witness :
  exists http data call,
    Replied 200 (JObj [("session_id", JStr "session-1")]) = Replied http data /\
    http_ok http = true /\
    forwarded (POST (example_request "start-session")
                 (Replied 200 (JObj [("session_id", JStr "session-1")]))) = Some call /\
    auth_header (example_request "start-session") = Some (authorization call) /\
    is_bearer (authorization call) = true /\
    status (resp (POST (example_request "start-session")
                    (Replied 200 (JObj [("session_id", JStr "session-1")])))) = 200%nat.
Proof.
  apply (video_call_success_needs_backend (example_request "start-session")
           (Replied 200 (JObj [("session_id", JStr "session-1")]))).
  reflexivity.
Defined.

(** X16: a refusal of the backend is passed on.  When the backend answers an
    authenticated request of a recognized type with a status outside 2xx and
    a body, the route answers with that same status and [success: false]. *)
Theorem video_call_backend_status_passed_on req b http data :
  bad_auth_header (auth_header req) = false -> json_body req = Some b ->
  is_recognized b = true -> http_ok http = false -> is_null data = false ->
  status (resp (POST req (Replied http data))) = http /\
  get "success" (content (resp (POST req (Replied http data)))) = Some (JBool false) /\
  is_Some (get "message" (content (resp (POST req (Replied http data))))).
Proof.
  intros Hauth Hb Hrec Hok Hnull. rewrite is_recognized_unfold in Hrec.
  unfold POST. rewrite Hauth, Hb.
  repeat (destruct (is_string (type b) _);
          [unfold relay; cbn [resp]; rewrite Hok, Hnull; by repeat split|]).
  discriminate.
Qed.

Lemma video_call_backend_status_passed_on_witness :
  status (resp (POST (example_request "end-session")
                  (Replied 404 (JObj [("detail", JStr "Session not found")])))) = 404%nat /\
  get "success" (content (resp (POST (example_request "end-session")
                  (Replied 404 (JObj [("detail", JStr "Session not found")])))))
  = Some (JBool false) /\
  is_Some (get "message" (content (resp (POST (example_request "end-session")
                  (Replied 404 (JObj [("detail", JStr "Session not found")])))))).
Proof.
  apply (video_call_backend_status_passed_on (example_request "end-session")
           (example_body "end-session") 404
           (JObj [("detail", JStr "Session not found")])); reflexivity.
Defined.

End VideoCallRouteAnswers.

(** ** Client hooks: when they return, what they store *)

Section AuthApiHookFacts.
Import AuthApi.

(** The hook returns exactly when the route's relay answers 200. *)
Lemma makeAuthenticatedRequest_returned e token auth p payload reads ok fallback b :
  access_token e = Some token ->
  VideoCallRoute.POST
    {| VideoCallRoute.auth_header := Some (String.append "Bearer " token);
       VideoCallRoute.json_body := Some b |} (reply e)
  = VideoCallRoute.relay auth p payload reads ok fallback (reply e) ->
  returned (makeAuthenticatedRequest e b)
  = match reply e with
    | VideoCallRoute.Replied http data =>
        http_ok http && negb (reads && VideoCallRoute.is_null data)
    | VideoCallRoute.FetchFailed => false
    end.
Proof.
  intros He HP. unfold makeAuthenticatedRequest. rewrite He, HP.
  unfold VideoCallRoute.relay. cbn [VideoCallRoute.resp].
  destruct (reply e) as [http data|]; [|done].
  destruct (http_ok http) eqn:Hok; cbn [andb].
  - destruct (reads && VideoCallRoute.is_null data); done.
  - destruct (VideoCallRoute.is_null data); cbn [VideoCallRoute.unavailable
      VideoCallRoute.failure VideoCallRoute.status]; [done|].
    destruct (http =? 401)%nat; [done|]. by rewrite Hok.
Qed.

Lemma startVideoCall_result db e targetId sessionData :
  (startVideoCall db e targetId sessionData).1
  = makeAuthenticatedRequest e
      {| VideoCallRoute.userId := JStr <$> user e;
         VideoCallRoute.targetId := Some (JStr targetId);
         VideoCallRoute.type := Some (JStr "start-session");
         VideoCallRoute.sessionData := sessionData;
         VideoCallRoute.offer := None;
         VideoCallRoute.answer := None;
         VideoCallRoute.candidate := None |}.
Proof.
  unfold startVideoCall. cbn [request_body VideoCallRoute.userId VideoCallRoute.type].
  destruct (makeAuthenticatedRequest _ _); [|done]. by destruct (_ && _).
Qed.

Lemma endVideoCall_result db e sid :
  (endVideoCall db e sid).1
  = makeAuthenticatedRequest e
      {| VideoCallRoute.userId := JStr <$> user e;
         VideoCallRoute.targetId := None;
         VideoCallRoute.type := Some (JStr "end-session");
         VideoCallRoute.sessionData := session_ref sid;
         VideoCallRoute.offer := None;
         VideoCallRoute.answer := None;
         VideoCallRoute.candidate := None |}.
Proof.
  unfold endVideoCall. cbn [request_body VideoCallRoute.userId VideoCallRoute.type].
  destruct (makeAuthenticatedRequest _ _); [|done]. by destruct (js_truthy _).
Qed.

(** X17: a hook returns exactly when the backend accepts.  Each video-call
    hook returns a result if the caller has an auth session and the backend
    answers 2xx (with a body, for the requests whose answer reads it: start,
    offer and end); in every other case it throws, and then the table
    [video_sessions] is left as it was. *)
Theorem hook_returns_iff_backend_accepts db e a :
  returned (perform db e a).1
  = match access_token e, reply e with
    | Some _, VideoCallRoute.Replied http data =>
        http_ok http && negb (reads_reply a && VideoCallRoute.is_null data)
    | _, _ => false
    end /\
  (if returned (perform db e a).1 then True else (perform db e a).2 = db).
Proof.
  split.
  - destruct (access_token e) as [token|] eqn:He.
    + destruct a; cbn [perform fst];
        [ rewrite startVideoCall_result | | | | rewrite endVideoCall_result ];
        unfold sendWebRTCOffer, sendWebRTCAnswer, sendICECandidate;
        (erewrite makeAuthenticatedRequest_returned;
         [reflexivity | exact He |
          unfold VideoCallRoute.POST; cbn [VideoCallRoute.auth_header];
          rewrite bad_auth_header_template; reflexivity]).
    + destruct a; cbn [perform fst];
        unfold startVideoCall, endVideoCall, sendWebRTCOffer, sendWebRTCAnswer,
          sendICECandidate, makeAuthenticatedRequest; by rewrite He.
  - destruct a; cbn [perform fst snd]; try by destruct (returned _).
    + unfold startVideoCall. destruct (makeAuthenticatedRequest _ _); [|done].
      by destruct (_ && _).
    + unfold endVideoCall. destruct (makeAuthenticatedRequest _ _); [|done].
      by destruct (js_truthy _).
Qed.

(** What an accepted [startVideoCall] hands to the table. *)
Lemma startVideoCall_stores db e targetId sessionData http data sid :
  accepts e = true -> reply e = VideoCallRoute.Replied http data ->
  get "session_id" data = Some (JStr sid) -> sid <> "" ->
  (startVideoCall db e targetId sessionData).2
  = insert_session db e (Some (JStr sid)) targetId
      (if js_truthy sessionData then default (JObj []) sessionData else JObj []).
Proof.
  intros Hacc Hr Hsid Hne. unfold accepts in Hacc. rewrite Hr in Hacc.
  destruct (access_token e) as [token|] eqn:He; [|discriminate].
  apply andb_true_iff in Hacc as [Hok Hnull%negb_true_iff].
  unfold startVideoCall, makeAuthenticatedRequest. rewrite He.
  unfold VideoCallRoute.POST. cbn [VideoCallRoute.auth_header].
  rewrite bad_auth_header_template.
  cbn [VideoCallRoute.json_body VideoCallRoute.type request_body is_string String.eqb
       Ascii.eqb Bool.eqb].
  unfold VideoCallRoute.relay. cbn [VideoCallRoute.resp]. rewrite Hr, Hok, Hnull.
  cbn [andb VideoCallRoute.status VideoCallRoute.content Nat.eqb http_ok Nat.leb negb].
  rewrite Hsid. cbn.
  destruct (String.eqb_spec sid ""); [done|]. reflexivity.
Qed.

(** The input syntax on a few ids: the printed form, the same id in upper
    case, in braces and with other hyphens, and the target ids the call screen
    passes. *)
Example uuid_in_examples :
  uuid_in "3e4f5a6b-7c8d-4e9f-a0b1-c2d3e4f5a6b7"
  = Some "3e4f5a6b-7c8d-4e9f-a0b1-c2d3e4f5a6b7" /\
  uuid_in "{3E4F5A6B7C8D-4E9F-A0B1-C2D3-E4F5A6B7}"
  = Some "3e4f5a6b-7c8d-4e9f-a0b1-c2d3e4f5a6b7" /\
  uuid_in "3e4f5a6b-7c8d-4e9f-a0b1-c2d3e4f5a6b" = None /\
  uuid_in "3e4f5a6b-7c8d-4e9f-a0b1-c2d3e4f5a6b7 " = None /\
  uuid_in "therapist" = None /\ uuid_in "ai-therapist" = None /\ uuid_in "" = None.
Proof. vm_compute. done. Qed.

Lemma uuid_in_nonempty s k : uuid_in s = Some k -> s <> "".
Proof. intros H ->. discriminate. Qed.

(** The table after an accepted start that meets the table's constraints. *)
Lemma startVideoCall_inserts db e targetId sessionData http data sid k uid u t :
  accepts e = true -> reply e = VideoCallRoute.Replied http data ->
  get "session_id" data = Some (JStr sid) -> uuid_in sid = Some k ->
  user e = Some uid -> uuid_in uid = Some u -> uuid_in targetId = Some t ->
  caller e = Some u -> u ∈ auth_users e -> t ∈ auth_users e ->
  db !! k = None ->
  (startVideoCall db e targetId sessionData).2
  = <[k := {| user_id := u; target_id := Some t; status := "active";
              started_at := now e; ended_at := None; duration := None;
              metadata := if js_truthy sessionData
                          then default (JObj []) sessionData else JObj [] |}]> db.
Proof.
  intros Hacc Hr Hsid Hk Hu Huid Ht Hc Hin Htin Hfresh.
  rewrite (startVideoCall_stores db e targetId sessionData http data sid)
    by eauto using uuid_in_nonempty.
  unfold insert_session. rewrite Hu. cbn [mbind option_bind]. rewrite Huid, Ht, Hk.
  by rewrite !bool_decide_eq_true_2.
Qed.

Lemma is_participant_caller e r u :
  caller e = Some u -> (user_id r = u \/ target_id r = Some u) ->
  is_participant e r = true.
Proof.
  intros Hc Hr. unfold is_participant. rewrite Hc. apply orb_true_iff.
  destruct Hr as [->| ->]; [left; apply String.eqb_refl|right; by apply bool_decide_eq_true].
Qed.

(** The two rows of a call that is started and then ended by a participant. *)
Lemma video_call_started_ended db e1 e2 targetId sessionData http data sid k uid u t :
  accepts e1 = true -> reply e1 = VideoCallRoute.Replied http data ->
  get "session_id" data = Some (JStr sid) -> uuid_in sid = Some k ->
  user e1 = Some uid -> uuid_in uid = Some u -> uuid_in targetId = Some t ->
  caller e1 = Some u -> u ∈ auth_users e1 -> t ∈ auth_users e1 ->
  db !! k = None ->
  accepts e2 = true -> (caller e2 = Some u \/ caller e2 = Some t) ->
  (startVideoCall db e1 targetId sessionData).2 !! k
  = Some {| user_id := u; target_id := Some t; status := "active";
            started_at := now e1; ended_at := None; duration := None;
            metadata := if js_truthy sessionData
                        then default (JObj []) sessionData else JObj [] |} /\
  (endVideoCall (startVideoCall db e1 targetId sessionData).2 e2 sid).2 !! k
  = Some {| user_id := u; target_id := Some t; status := "ended";
            started_at := now e1; ended_at := Some (now e2); duration := None;
            metadata := if js_truthy sessionData
                        then default (JObj []) sessionData else JObj [] |}.
Proof.
  intros Hacc Hr Hsid Hk Hu Huid Ht Hc Hin Htin Hfresh Hacc2 Hc2.
  rewrite (startVideoCall_inserts db e1 targetId sessionData http data sid k uid u t)
    by done.
  destruct (endVideoCall_outcome
              (<[k := {| user_id := u; target_id := Some t; status := "active";
                         started_at := now e1; ended_at := None; duration := None;
                         metadata := if js_truthy sessionData
                                     then default (JObj []) sessionData
                                     else JObj [] |}]> db) e2 sid) as [_ ->].
  rewrite Hacc2. split; [apply lookup_insert_eq|].
  rewrite update_ended_lookup, bool_decide_eq_true_2, lookup_insert_eq by done.
  cbn [fmap option_fmap option_map].
  destruct Hc2 as [Hc2|Hc2];
    (rewrite (is_participant_caller _ _ _ Hc2); [done|]); [by left|by right].
Qed.

(** X18: the life of a call in the table.  When [startVideoCall] is accepted
    by the backend under a session id that is a UUID the table does not hold,
    and the caller and the target are UUIDs of [auth.users], the caller being
    [auth.uid()], the table gains one row for that id: active, started at the
    time of the call, not ended, with the caller as [user_id] and the target
    as [target_id].  When [endVideoCall] for that id is accepted afterwards
    for one of the two, the row has status "ended" and [ended_at] the time of
    the second call and keeps its other columns; all other sessions are as
    they were before the two calls.  A start stores nothing when the target
    is no UUID (as the "therapist" and "ai-therapist" of the call screen are
    not), when the caller's id is no UUID, is not [auth.uid()] or is not in
    [auth.users], when the target is not in [auth.users], or when the session
    id is taken. *)
Theorem video_call_lifecycle db e1 e2 targetId sessionData http data sid k uid u t :
  accepts e1 = true -> reply e1 = VideoCallRoute.Replied http data ->
  get "session_id" data = Some (JStr sid) -> uuid_in sid = Some k ->
  user e1 = Some uid -> uuid_in uid = Some u -> uuid_in targetId = Some t ->
  caller e1 = Some u -> u ∈ auth_users e1 -> t ∈ auth_users e1 ->
  db !! k = None ->
  accepts e2 = true -> (caller e2 = Some u \/ caller e2 = Some t) ->
  let db1 := (startVideoCall db e1 targetId sessionData).2 in
  let db2 := (endVideoCall db1 e2 sid).2 in
  db1 !! k
  = Some {| user_id := u; target_id := Some t; status := "active";
            started_at := now e1; ended_at := None; duration := None;
            metadata := if js_truthy sessionData
                        then default (JObj []) sessionData else JObj [] |} /\
  db2 !! k
  = Some {| user_id := u; target_id := Some t; status := "ended";
            started_at := now e1; ended_at := Some (now e2); duration := None;
            metadata := if js_truthy sessionData
                        then default (JObj []) sessionData else JObj [] |} /\
  (forall k', k' <> k -> db1 !! k' = db !! k' /\ db2 !! k' = db !! k') /\
  (forall other, uuid_in other = None -> (startVideoCall db e1 other sessionData).2 = db) /\
  (startVideoCall db e1 "therapist" sessionData).2 = db /\
  (startVideoCall db e1 "ai-therapist" sessionData).2 = db /\
  (forall e', accepts e' = true -> reply e' = VideoCallRoute.Replied http data ->
     (user e' ≫= uuid_in = None \/
      exists u', user e' ≫= uuid_in = Some u' /\
                 (caller e' <> Some u' \/ u' ∉ auth_users e' \/ t ∉ auth_users e')) ->
     (startVideoCall db e' targetId sessionData).2 = db) /\
  (forall taken row, taken !! k = Some row ->
     (startVideoCall taken e1 targetId sessionData).2 = taken).
Proof.
  intros Hacc Hr Hsid Hk Hu Huid Ht Hc Hin Htin Hfresh Hacc2 Hc2 db1 db2. subst db1 db2.
  rewrite (startVideoCall_inserts db e1 targetId sessionData http data sid k uid u t)
    by done.
  destruct (endVideoCall_outcome
              (<[k := {| user_id := u; target_id := Some t; status := "active";
                         started_at := now e1; ended_at := None; duration := None;
                         metadata := if js_truthy sessionData
                                     then default (JObj []) sessionData
                                     else JObj [] |}]> db) e2 sid) as [_ ->].
  assert (Hother : forall other, uuid_in other = None ->
                                 (startVideoCall db e1 other sessionData).2 = db).
  { intros other Hother.
    rewrite (startVideoCall_stores db e1 other sessionData http data sid)
      by eauto using uuid_in_nonempty.
    unfold insert_session. rewrite Hother. by destruct (user e1 ≫= uuid_in). }
  assert (Hrefused : forall e', accepts e' = true ->
            reply e' = VideoCallRoute.Replied http data ->
            (user e' ≫= uuid_in = None \/
             exists u', user e' ≫= uuid_in = Some u' /\
                        (caller e' <> Some u' \/ u' ∉ auth_users e' \/ t ∉ auth_users e')) ->
            (startVideoCall db e' targetId sessionData).2 = db).
  { intros e' Hacc' Hr' Hbad.
    rewrite (startVideoCall_stores db e' targetId sessionData http data sid)
      by eauto using uuid_in_nonempty.
    unfold insert_session. rewrite Ht, Hk.
    destruct Hbad as [->|(u' & -> & Hbad)]; [done|].
    destruct Hbad as [Hbad|[Hbad|Hbad]];
      rewrite (bool_decide_eq_false_2 _ Hbad), ?andb_false_r; done. }
  assert (Htaken : forall taken row, taken !! k = Some row ->
            (startVideoCall taken e1 targetId sessionData).2 = taken).
  { intros taken row Hrow.
    rewrite (startVideoCall_stores taken e1 targetId sessionData http data sid)
      by eauto using uuid_in_nonempty.
    unfold insert_session. rewrite Hu. cbn [mbind option_bind]. rewrite Huid, Ht, Hk.
    rewrite (bool_decide_eq_false_2 (taken !! k = None)) by congruence. done. }
  rewrite Hacc2. split; [apply lookup_insert_eq|].
  split; [|split; [|split; [|split; [|split; [|split]]]]];
    [| |exact Hother|by apply Hother|by apply Hother|exact Hrefused|exact Htaken].
  - rewrite update_ended_lookup, bool_decide_eq_true_2, lookup_insert_eq by done.
    cbn [fmap option_fmap option_map].
    destruct Hc2 as [Hc2|Hc2];
      (rewrite (is_participant_caller _ _ _ Hc2); [done|]); [by left|by right].
  - intros k' Hne.
    rewrite update_ended_lookup, bool_decide_eq_false_2, lookup_insert_ne by congruence.
    done.
Qed.

Lemma video_call_lifecycle_witness :
  (startVideoCall ∅ (example_env 500 example_start_reply) example_therapist None).2
    !! example_id
  = Some {| user_id := example_patient; target_id := Some example_therapist;
            status := "active"; started_at := 500; ended_at := None; duration := None;
            metadata := JObj [] |} /\
  (endVideoCall
     (startVideoCall ∅ (example_env 500 example_start_reply) example_therapist None).2
     (example_env_of example_therapist 900 example_summary) example_id).2 !! example_id
  = Some {| user_id := example_patient; target_id := Some example_therapist;
            status := "ended"; started_at := 500; ended_at := Some 900; duration := None;
            metadata := JObj [] |} /\
  (forall k', k' <> example_id ->
     (startVideoCall ∅ (example_env 500 example_start_reply) example_therapist None).2 !! k'
     = (∅ : gmap string video_session) !! k' /\
     (endVideoCall
        (startVideoCall ∅ (example_env 500 example_start_reply) example_therapist None).2
        (example_env_of example_therapist 900 example_summary) example_id).2 !! k'
     = (∅ : gmap string video_session) !! k') /\
  (forall other, uuid_in other = None ->
     (startVideoCall ∅ (example_env 500 example_start_reply) other None).2 = ∅) /\
  (startVideoCall ∅ (example_env 500 example_start_reply) "therapist" None).2 = ∅ /\
  (startVideoCall ∅ (example_env 500 example_start_reply) "ai-therapist" None).2 = ∅ /\
  (forall e', accepts e' = true -> reply e' = VideoCallRoute.Replied 200 example_start_reply ->
     (user e' ≫= uuid_in = None \/
      exists u', user e' ≫= uuid_in = Some u' /\
                 (caller e' <> Some u' \/ u' ∉ auth_users e' \/
                  example_therapist ∉ auth_users e')) ->
     (startVideoCall ∅ e' example_therapist None).2 = ∅) /\
  (forall taken row, taken !! example_id = Some row ->
     (startVideoCall taken (example_env 500 example_start_reply) example_therapist None).2
     = taken).
Proof.
  apply (video_call_lifecycle ∅ (example_env 500 example_start_reply)
           (example_env_of example_therapist 900 example_summary) example_therapist None 200
           example_start_reply example_id example_id example_patient example_patient
           example_therapist);
    try reflexivity; try (vm_compute; reflexivity).
  right. vm_compute. reflexivity.
Defined.

End AuthApiHookFacts.

(** ** Socket provider: reconnects over arbitrary event sequences *)

Section SocketProviderRunFacts.
Import SocketProvider.

Lemma run_accounting evs st :
  (sockets_created (run st evs) + pending_timers (run st evs)
   <= sockets_created st + pending_timers st + closures evs)%nat /\
  scheduled (run st evs) = scheduled st ++ replicate (closures evs) 3000.
Proof.
  revert st. induction evs as [|e evs IH]; intros st.
  - simpl. split; [lia|by rewrite app_nil_r].
  - rewrite run_cons. destruct (IH (step st e)) as [Hle Hs]. rewrite Hs. clear IH Hs.
    destruct e; cbn [closures step] in *.
    + unfold pending_timers in *. simpl in *. split.
      * destruct (reconnectTimeoutRef st); lia.
      * by rewrite <- app_assoc.
    + unfold pending_timers in *.
      destruct (reconnectTimeoutRef st) eqn:Ht; simpl in *; rewrite ?Ht in *;
        (split; [lia|done]).
Qed.

(** X19: one reconnect per closure at most.  Over any sequence of closures
    and timer expiries after mounting, the number of sockets created is at
    most one plus the number of closures (several closures before the timer
    fires lead to one reconnect), and every reconnect that was scheduled waits
    3000ms, one being scheduled per closure. *)
Theorem reconnects_bounded_by_closures evs :
  (sockets_created (run mounted evs) <= 1 + closures evs)%nat /\
  scheduled (run mounted evs) = replicate (closures evs) 3000.
Proof.
  destruct (run_accounting evs mounted) as [Hle Hs]. split; [|exact Hs].
  simpl in Hle. lia.
Qed.

(** Three closures in a row before the timer fires: one reconnect. *)
Example reconnect_burst_example :
  sockets_created (run mounted [SocketClosed; SocketClosed; SocketClosed; TimeoutFired;
                                TimeoutFired]) = 2%nat.
Proof. reflexivity. Qed.

End SocketProviderRunFacts.

(** ** Signaling handlers: what is sent and which description is kept *)

Section WebRTCClientRunFacts.
Import WebRTCClient.

Lemma client_run_snoc c evs e : run c (evs ++ [e]) = handle (run c evs) e.
Proof. unfold run. by rewrite foldl_app. Qed.

Lemma handle_sent_exact c e :
  sent (effects (handle c e))
  = sent (effects c)
    ++ match e with
       | Open offer => [JObj [("type", JStr "offer"); ("offer", offer)]]
       | Message data answer =>
           if is_string (get "type" data) "offer"
           then [JObj [("type", JStr "answer"); ("answer", answer)]]
           else []
       | IceCandidate (Some cand) =>
           [JObj [("type", JStr "ice-candidate"); ("candidate", cand)]]
       | IceCandidate None => []
       end.
Proof.
  destruct e as [offer|data answer|[cand|]]; simpl.
  - unfold onopen, emit. simpl. by rewrite sent_app.
  - unfold onmessage. destruct (is_string (get "type" data) "offer").
    { simpl. rewrite !sent_app. simpl. by rewrite app_nil_r. }
    destruct (is_string (get "type" data) "answer").
    { simpl. rewrite sent_app. reflexivity. }
    destruct (is_string (get "type" data) "ice-candidate").
    { simpl. by rewrite sent_app. }
    by rewrite app_nil_r.
  - unfold emit. simpl. by rewrite sent_app.
  - by rewrite app_nil_r.
Qed.

Lemma sent_of_type_handle t c e :
  sent_of_type t (effects (handle c e))
  = (sent_of_type t (effects c)
     + match e with
       | Open _ => if String.eqb "offer" t then 1 else 0
       | Message data _ =>
           if is_string (get "type" data) "offer"
           then (if String.eqb "answer" t then 1 else 0) else 0
       | IceCandidate (Some _) => if String.eqb "ice-candidate" t then 1 else 0
       | IceCandidate None => 0
       end)%nat.
Proof.
  unfold sent_of_type. rewrite handle_sent_exact, filter_app, length_app. f_equal.
  destruct e as [offer|data answer|[cand|]]; [| |  |reflexivity].
  - rewrite filter_cons, filter_nil.
    change (is_string (get "type" (JObj [("type", JStr "offer"); ("offer", offer)])) t)
      with (String.eqb "offer" t).
    by destruct (String.eqb "offer" t).
  - destruct (is_string (get "type" data) "offer"); [|reflexivity].
    rewrite filter_cons, filter_nil.
    change (is_string (get "type" (JObj [("type", JStr "answer"); ("answer", answer)])) t)
      with (String.eqb "answer" t).
    by destruct (String.eqb "answer" t).
  - rewrite filter_cons, filter_nil.
    change (is_string (get "type" (JObj [("type", JStr "ice-candidate");
                                         ("candidate", cand)])) t)
      with (String.eqb "ice-candidate" t).
    by destruct (String.eqb "ice-candidate" t).
Qed.

Lemma length_filter_snoc {A} (P : A -> Prop) `{!forall x, Decision (P x)} l x :
  length (filter P (l ++ [x])) = (length (filter P l) + if decide (P x) then 1 else 0)%nat.
Proof.
  rewrite filter_app, length_app, filter_cons, filter_nil. by destruct (decide (P x)).
Qed.

(** X20: what the client sends, counted.  Over any sequence of events, the
    client has sent one offer per opening of the socket, one answer per offer
    received, and one candidate message per local candidate that is not null;
    answers and candidates received from the peer make it send nothing. *)
Theorem signaling_messages_counted evs :
  sent_of_type "offer" (effects (run fresh evs))
  = length (filter (fun e => is_open e = true) evs) /\
  sent_of_type "answer" (effects (run fresh evs)) = received_of_type "offer" evs /\
  sent_of_type "ice-candidate" (effects (run fresh evs))
  = length (filter (fun e => is_local_candidate e = true) evs) /\
  length (sent (effects (run fresh evs)))
  = (length (filter (fun e => is_open e = true) evs) + received_of_type "offer" evs
     + length (filter (fun e => is_local_candidate e = true) evs))%nat.
Proof.
  unfold received_of_type.
  induction evs as [|e evs (IH1 & IH2 & IH3 & IH4)] using rev_ind; [done|].
  rewrite client_run_snoc, !sent_of_type_handle, !length_filter_snoc,
    handle_sent_exact, length_app, IH1, IH2, IH3, IH4.
  destruct e as [offer|data answer|[cand|]]; simpl;
    try destruct (is_string (get "type" data) "offer"); simpl; repeat split; lia.
Qed.

Lemma remote_description_handle c e :
  remote_description (handle c e)
  = match received_descriptions [e] with
    | d :: _ => Some d
    | [] => remote_description c
    end.
Proof.
  destruct e as [offer|data answer|[cand|]]; try reflexivity.
  simpl. unfold onmessage, received_descriptions. simpl.
  destruct (is_string (get "type" data) "offer"); [reflexivity|].
  destruct (is_string (get "type" data) "answer"); [reflexivity|].
  by destruct (is_string (get "type" data) "ice-candidate").
Qed.

(** X21: the last description wins.  After any sequence of events the remote
    description of the peer connection is the one carried by the last offer or
    answer message received, whichever came before it; it is unset exactly
    when no offer and no answer was received. *)
Theorem remote_description_is_last_received evs :
  remote_description (run fresh evs) = last (received_descriptions evs).
Proof.
  induction evs as [|e evs IH] using rev_ind; [done|].
  rewrite client_run_snoc, remote_description_handle, IH.
  unfold received_descriptions. rewrite omap_app.
  destruct (omap _ [e]) as [|d [|]] eqn:He.
  - by rewrite app_nil_r.
  - by rewrite last_snoc.
  - simpl in He. by destruct (match e with Open _ => _ | _ => _ end).
Qed.

(** An answer that arrives after an offer replaces the offer's description. *)
Example remote_description_replaced_example :
  remote_description
    (run fresh [Message (JObj [("type", JStr "offer"); ("offer", example_sdp "offer")])
                  (example_sdp "answer");
                Message (JObj [("type", JStr "answer"); ("answer", example_sdp "answer")])
                  (example_sdp "answer")])
  = Some (Some (example_sdp "answer")).
Proof. reflexivity. Qed.

End WebRTCClientRunFacts.

(** ** Session queries *)

Section SessionQueriesFacts.
Import AuthApi SessionQueries.

(** X22: the queries follow the life of a call.  A call is started and then
    ended as in X18, and a participant of the call (the caller or the target,
    signed in under that id) runs the two queries.  After the start the
    session query answers from the table with the active row and the list of
    active sessions holds it; after the end the session query answers from the
    table with the row ended at the time of the second call and the list of
    active sessions no longer holds it.  The list only ever holds active
    sessions of the one who asks, and to anyone who is neither the caller nor
    the target the session query does not answer from the table. *)
Theorem session_queries_follow_lifecycle
    db e1 e2 q targetId sessionData http data sid k uid u t qid w :
  accepts e1 = true -> reply e1 = VideoCallRoute.Replied http data ->
  get "session_id" data = Some (JStr sid) -> uuid_in sid = Some k ->
  user e1 = Some uid -> uuid_in uid = Some u -> uuid_in targetId = Some t ->
  caller e1 = Some u -> u ∈ auth_users e1 -> t ∈ auth_users e1 ->
  db !! k = None ->
  accepts e2 = true -> (caller e2 = Some u \/ caller e2 = Some t) ->
  user q = Some qid -> uuid_in qid = Some w -> caller q = Some w -> (w = u \/ w = t) ->
  let db1 := (startVideoCall db e1 targetId sessionData).2 in
  let db2 := (endVideoCall db1 e2 sid).2 in
  exists row ended active1 active2,
    getVideoCallSession db1 q false sid = FromTable row /\
    status row = "active" /\ user_id row = u /\ target_id row = Some t /\
    getActiveVideoCallSessions db1 q false = FromTable active1 /\
    active1 !! k = Some row /\
    getVideoCallSession db2 q false sid = FromTable ended /\
    status ended = "ended" /\ ended_at ended = Some (now e2) /\
    getActiveVideoCallSessions db2 q false = FromTable active2 /\
    active2 !! k = None /\
    (forall k' r, active2 !! k' = Some r ->
       db2 !! k' = Some r /\ status r = "active" /\
       (user_id r = w \/ target_id r = Some w)) /\
    (forall q', caller q' <> Some u -> caller q' <> Some t ->
       getVideoCallSession db1 q' false sid = FromApi /\
       getVideoCallSession db2 q' false sid = FromApi).
Proof.
  intros Hacc Hr Hsid Hk Hu Huid Ht Hc Hin Htin Hfresh Hacc2 Hc2 Hq Hqid Hqc Hw db1 db2.
  destruct (video_call_started_ended db e1 e2 targetId sessionData http data sid k uid u t)
    as (H1 & H2); try done.
  fold db1 in H1. fold db1 db2 in H2.
  set (row := {| user_id := u; target_id := Some t; status := "active";
                 started_at := now e1; ended_at := None; duration := None;
                 metadata := if js_truthy sessionData
                             then default (JObj []) sessionData else JObj [] |}) in *.
  set (ended := {| user_id := u; target_id := Some t; status := "ended";
                   started_at := now e1; ended_at := Some (now e2); duration := None;
                   metadata := if js_truthy sessionData
                               then default (JObj []) sessionData else JObj [] |}) in *.
  assert (Hp1 : is_participant q row = true).
  { apply (is_participant_caller q row w Hqc). destruct Hw as [->| ->]; [by left|by right]. }
  assert (Hp2 : is_participant q ended = true) by exact Hp1.
  unfold getVideoCallSession, getActiveVideoCallSessions.
  rewrite Hq. cbn [mbind option_bind negb]. rewrite Hqid, Hk. cbn [mbind option_bind].
  rewrite H1, H2, Hp1, Hp2.
  eexists row, ended, _, _.
  split; [reflexivity|]. split; [reflexivity|]. split; [reflexivity|]. split; [reflexivity|].
  split; [reflexivity|]. split.
  { apply map_lookup_filter_Some. split; [exact H1|]. cbn [snd].
    rewrite Hp1. cbn [andb]. unfold is_active_for.
    change (status row) with "active". cbn [String.eqb Ascii.eqb Bool.eqb andb].
    apply orb_true_iff. destruct Hw as [->| ->];
      [left; apply String.eqb_refl|right; by apply bool_decide_eq_true]. }
  split; [reflexivity|]. split; [reflexivity|]. split; [reflexivity|].
  split; [reflexivity|]. split; [|split].
  - apply map_lookup_filter_None. right. intros r. rewrite H2. intros [= <-].
    cbn [snd]. unfold is_active_for. change (status ended) with "ended".
    cbn [String.eqb Ascii.eqb Bool.eqb andb]. by rewrite andb_false_r.
  - intros k' r [Hl Hactive]%map_lookup_filter_Some. cbn [snd] in Hactive.
    apply andb_true_iff in Hactive as [_ Hactive]. unfold is_active_for in Hactive.
    apply andb_true_iff in Hactive as [Hs Hwho]. split; [done|].
    split; [by apply String.eqb_eq|].
    apply orb_true_iff in Hwho as [Hwho|Hwho].
    + left. by apply String.eqb_eq.
    + right. by apply bool_decide_eq_true in Hwho.
  - intros q' Hnu Hnt.
    assert (Hn : forall r, user_id r = u -> target_id r = Some t ->
                           is_participant q' r = false).
    { intros r Hru Hrt. unfold is_participant. destruct (caller q') as [c|]; [|done].
      rewrite Hru, Hrt. apply orb_false_iff. split.
      - apply String.eqb_neq. congruence.
      - apply bool_decide_eq_false. congruence. }
    by rewrite (Hn row), (Hn ended).
Qed.

Lemma session_queries_follow_lifecycle_witness :
  exists row ended active1 active2,
    getVideoCallSession example_started
      (example_env_of example_therapist 950 JNull) false example_id = FromTable row /\
    status row = "active" /\ user_id row = example_patient /\
    target_id row = Some example_therapist /\
    getActiveVideoCallSessions example_started
      (example_env_of example_therapist 950 JNull) false = FromTable active1 /\
    active1 !! example_id = Some row /\
    getVideoCallSession example_ended_once
      (example_env_of example_therapist 950 JNull) false example_id = FromTable ended /\
    status ended = "ended" /\ ended_at ended = Some 1000 /\
    getActiveVideoCallSessions example_ended_once
      (example_env_of example_therapist 950 JNull) false = FromTable active2 /\
    active2 !! example_id = None /\
    (forall k' r, active2 !! k' = Some r ->
       example_ended_once !! k' = Some r /\ status r = "active" /\
       (user_id r = example_therapist \/ target_id r = Some example_therapist)) /\
    (forall q', caller q' <> Some example_patient -> caller q' <> Some example_therapist ->
       getVideoCallSession example_started q' false example_id = FromApi /\
       getVideoCallSession example_ended_once q' false example_id = FromApi).
Proof.
  apply (session_queries_follow_lifecycle ∅ (example_env 500 example_start_reply)
           (example_env 1000 example_summary) (example_env_of example_therapist 950 JNull)
           example_therapist None 200 example_start_reply example_id example_id
           example_patient example_patient example_therapist example_therapist
           example_therapist);
    try reflexivity; try (vm_compute; reflexivity).
  - left. vm_compute. reflexivity.
  - right. reflexivity.
Defined.

End SessionQueriesFacts.
